(** * ICETransport (pion/webrtc v4, icetransport.go): lifecycle model

    A shallow embedding of [ICETransport]: its fields as a record, its
    methods as computations in a small state monad that threads the
    transport, the state of the collaborators (gatherer, agent, mux,
    contexts, handlers) and the log of the calls made to them.

    The collaborators are interfaces to the transport; they are a type
    class here, and every theorem holds for every instance.  The methods
    that drop the transport's lock in the middle ([Start], [stop]) are
    written as the sequence of their critical sections, so that other
    operations can be scheduled between them. *)

From Stdlib Require Import List String ZArith Bool Lia.
Import ListNotations.
Local Open Scope string_scope.
Local Open Scope Z_scope.
Local Open Scope list_scope.

Set Implicit Arguments.
Set Warnings "-register-all".

(** ** Data *)

(** Modelled from the spec: the role enum {Controlling, Controlled} is
    declared outside icetransport.go.  It is a Go integer type, so values
    other than the two named ones exist ("any other role value"); zero is
    the value a fresh transport holds. *)
Definition ICERole := Z.
Definition ICERoleUnknown : ICERole := 0.
Definition ICERoleControlling : ICERole := 1.
Definition ICERoleControlled : ICERole := 2.

(** Modelled from the spec: the state enum {New, Checking, Connected,
    Completed, Disconnected, Failed, Closed} is declared outside
    icetransport.go; [ICETransportStateUnknown] is [ICETransportState(0)],
    which [State] returns when nothing was stored. *)
Inductive ICETransportState :=
| ICETransportStateUnknown
| ICETransportStateNew
| ICETransportStateChecking
| ICETransportStateConnected
| ICETransportStateCompleted
| ICETransportStateDisconnected
| ICETransportStateFailed
| ICETransportStateClosed.

Definition ICETransportState_eqb (a b : ICETransportState) : bool :=
  match a, b with
  | ICETransportStateUnknown, ICETransportStateUnknown
  | ICETransportStateNew, ICETransportStateNew
  | ICETransportStateChecking, ICETransportStateChecking
  | ICETransportStateConnected, ICETransportStateConnected
  | ICETransportStateCompleted, ICETransportStateCompleted
  | ICETransportStateDisconnected, ICETransportStateDisconnected
  | ICETransportStateFailed, ICETransportStateFailed
  | ICETransportStateClosed, ICETransportStateClosed => true
  | _, _ => false
  end.

(** Pointers to collaborator objects are references; a nil pointer is
    [None]. *)
Definition GathererRef := nat.
Definition AgentRef := nat.
Definition ConnRef := nat.
Definition MuxRef := nat.
Definition CtxRef := nat.
Definition HandlerRef := nat.
Definition ICECandidate := nat.
Definition ice_Candidate := nat.
Definition ice_ConnectionState := nat.

Record ICEParameters := {
  UsernameFragment : string;
  Password : string
}.

(** Go errors.  The sentinels are the package's error variables;
    [fmt.Errorf("%w: ...", e)] wraps a sentinel with a message;
    [errExternal] stands for an error produced by a collaborator. *)
Inductive sentinel :=
| errICETransportNotInNew
| errICEGathererNotStarted
| errICEAgentNotExist
| errICERoleUnknown
| errICETransportClosed
| errExternal (code : nat).

Inductive error :=
| Err (s : sentinel)
| Wrapf (s : sentinel) (msg : string)
| multiError (errs : list error).

Definition sentinel_eqb (a b : sentinel) : bool :=
  match a, b with
  | errICETransportNotInNew, errICETransportNotInNew
  | errICEGathererNotStarted, errICEGathererNotStarted
  | errICEAgentNotExist, errICEAgentNotExist
  | errICERoleUnknown, errICERoleUnknown
  | errICETransportClosed, errICETransportClosed => true
  | errExternal m, errExternal n => Nat.eqb m n
  | _, _ => false
  end.

(** [errors.Is] on a single error or a wrapped one. *)
Definition errors_Is (e : error) (target : sentinel) : bool :=
  match e with
  | Err s | Wrapf s _ => sentinel_eqb s target
  | multiError _ => false
  end.

(** Modelled from the spec: util.FlattenErrs is declared outside
    icetransport.go. "Both aggregate and return any errors from the closes
    performed (multiple close failures are combined, not silently
    dropped)": the nil entries are skipped, no error at all is nil, and
    otherwise all of them are returned as one combined error. *)
Definition FlattenErrs (errs : list (option error)) : option error :=
  match flat_map (fun e => match e with Some x => [x] | None => [] end) errs with
  | [] => None
  | es => Some (multiError es)
  end.

(** The struct.  [lock], [loggerFactory] and [log] carry no data of the
    model: the lock is rendered by the split into critical sections.

    A handler is a Go func value, nil ([None]) or not.  A handler slot is
    an [atomic.Value]: [None] while nothing was stored, [Some f] once the
    func value [f] was stored, and [f] may be the nil func: [Store] accepts
    it, the type assertion on [Load] then succeeds, and calling it
    panics. *)
Record ICETransport := {
  role : ICERole;
  onConnectionStateChangeHandler : option (option HandlerRef);
  internalOnConnectionStateChangeHandler : option (option HandlerRef);
  onSelectedCandidatePairChangeHandler : option (option HandlerRef);
  state : option ICETransportState;      (* atomic.Value *)
  gatherer : option GathererRef;
  conn : option ConnRef;
  mux : option MuxRef;
  ctx : option CtxRef;
  ctxCancel : option CtxRef              (* the cancel function of [ctx] *)
}.

(** The calls the transport makes to its collaborators, in the order it
    makes them.  Reads without effect ([getAgent], the receive MTU) are
    not logged. *)
Inductive Call :=
| CreateAgent (g : GathererRef)
| Gather (g : GathererRef)
| GathererClose (g : GathererRef)
| GathererGracefulClose (g : GathererRef)
| GathererGetLocalParameters (g : GathererRef)
| AgentOnConnectionStateChange (a : AgentRef)
| AgentOnSelectedCandidatePairChange (a : AgentRef)
| Dial (a : AgentRef) (c : option CtxRef) (ufrag pwd : string)
| Accept (a : AgentRef) (c : option CtxRef) (ufrag pwd : string)
| AgentAddRemoteCandidate (a : AgentRef) (c : option ice_Candidate)
| AgentRestart (a : AgentRef)
| AgentSetRemoteCredentials (a : AgentRef) (ufrag pwd : string)
| AgentGetRemoteUserCredentials (a : AgentRef)
| AgentGetSelectedCandidatePair (a : AgentRef)
| WithCancel
| Cancel (c : CtxRef)
| NewMux (c : option ConnRef) (bufferSize : Z)
| MuxClose (m : MuxRef)
| MuxNewEndpoint (m : MuxRef)
| StateHandler (h : HandlerRef) (s : ICETransportState)
| PairHandler (h : HandlerRef) (localCand remoteCand : ICECandidate)
| CollectorCollecting
| CollectorCollect (bytesSent bytesReceived : Z).

(** ** Collaborators *)

(** The gatherer, the agent, the mux, the contexts and the handlers, as
    the transport sees them: each call reads and updates the collaborators'
    own state [Env] and gives the Go results back. *)
Class Collaborators := {
  Env : Type;
  (* ICEGatherer *)
  gatherer_getAgent : GathererRef -> Env -> option AgentRef;
  gatherer_createAgent : GathererRef -> Env -> option error * Env;
  gatherer_Gather : GathererRef -> Env -> option error * Env;
  gatherer_Close : GathererRef -> Env -> option error * Env;
  gatherer_GracefulClose : GathererRef -> Env -> option error * Env;
  gatherer_GetLocalParameters :
    GathererRef -> Env -> (ICEParameters * option error) * Env;
  gatherer_getReceiveMTU : GathererRef -> Env -> Z;
  gatherer_getSelectedCandidatePairStats : GathererRef -> Env -> nat * bool;
  (* ice.Agent *)
  agent_OnConnectionStateChange : AgentRef -> Env -> option error * Env;
  agent_OnSelectedCandidatePairChange : AgentRef -> Env -> option error * Env;
  agent_Dial : AgentRef -> option CtxRef -> string -> string -> Env ->
               (option ConnRef * option error) * Env;
  agent_Accept : AgentRef -> option CtxRef -> string -> string -> Env ->
                 (option ConnRef * option error) * Env;
  agent_AddRemoteCandidate :
    AgentRef -> option ice_Candidate -> Env -> option error * Env;
  agent_Restart : AgentRef -> Env -> option error * Env;
  agent_SetRemoteCredentials :
    AgentRef -> string -> string -> Env -> option error * Env;
  agent_GetRemoteUserCredentials :
    AgentRef -> Env -> (string * string * option error) * Env;
  agent_GetSelectedCandidatePair :
    AgentRef -> Env ->
    (option (ice_Candidate * ice_Candidate) * option error) * Env;
  (* context *)
  context_WithCancel : Env -> CtxRef * Env;
  context_cancel : CtxRef -> Env -> unit * Env;
  (* mux *)
  mux_NewMux : option ConnRef -> Z -> Env -> MuxRef * Env;
  mux_Close : MuxRef -> Env -> option error * Env;
  mux_NewEndpoint : MuxRef -> Env -> nat * Env;
  (* handlers stored by the application *)
  handler_state : HandlerRef -> ICETransportState -> Env -> unit * Env;
  handler_pair : HandlerRef -> ICECandidate -> ICECandidate -> Env -> unit * Env;
  (* ice.Conn counters and the stats collector *)
  conn_BytesSent : ConnRef -> Env -> Z;
  conn_BytesReceived : ConnRef -> Env -> Z;
  collector_Collecting : Env -> unit * Env;
  collector_Collect : Z -> Z -> Env -> unit * Env;
  (* conversions declared in other files of the package *)
  toICE : ICECandidate -> ice_Candidate * option error;
  newICECandidateFromICE : ice_Candidate -> ICECandidate * option error;
  newICECandidatesFromICE : list ice_Candidate -> list ICECandidate * option error;
  newICETransportStateFromICE : ice_ConnectionState -> ICETransportState
}.

(** ** The monad of the methods *)

Section Transport.

Context {C : Collaborators}.

Record World := {
  tr : ICETransport;      (* the receiver [t] *)
  env : Env;              (* the collaborators *)
  calls : list Call       (* calls made so far, oldest first *)
}.

(** A method returns, or panics on a nil pointer dereference. *)
Inductive Outcome (A : Type) :=
| Returns (a : A) (w : World)
| Panics (w : World).
Arguments Panics {A} w.

Definition M (A : Type) := World -> Outcome A.

Definition ret {A} (a : A) : M A := fun w => Returns a w.

Definition bind {A B} (m : M A) (k : A -> M B) : M B :=
  fun w => match m w with
           | Returns a w' => k a w'
           | Panics w' => Panics w'
           end.

Notation "x <- m ;; k" := (bind m (fun x => k))
  (at level 61, m at next level, right associativity).
Notation "m ;; k" := (bind m (fun _ => k))
  (at level 61, right associativity).

Definition panic {A} : M A := fun w => Panics w.

Definition get : M ICETransport := fun w => Returns (tr w) w.

Definition modify (f : ICETransport -> ICETransport) : M unit :=
  fun w => Returns tt {| tr := f (tr w); env := env w; calls := calls w |}.

(** A logged call to a collaborator. *)
Definition call {A} (c : Call) (f : Env -> A * Env) : M A :=
  fun w => let (a, e') := f (env w) in
           Returns a {| tr := tr w; env := e'; calls := calls w ++ [c] |}.

(** A read of the collaborators without effect. *)
Definition peek {A} (f : Env -> A) : M A := fun w => Returns (f (env w)) w.

(** Field assignments. *)
Definition set_role (r : ICERole) (t : ICETransport) : ICETransport :=
  {| role := r;
     onConnectionStateChangeHandler := onConnectionStateChangeHandler t;
     internalOnConnectionStateChangeHandler := internalOnConnectionStateChangeHandler t;
     onSelectedCandidatePairChangeHandler := onSelectedCandidatePairChangeHandler t;
     state := state t; gatherer := gatherer t; conn := conn t; mux := mux t;
     ctx := ctx t; ctxCancel := ctxCancel t |}.

Definition set_state (s : option ICETransportState) (t : ICETransport) : ICETransport :=
  {| role := role t;
     onConnectionStateChangeHandler := onConnectionStateChangeHandler t;
     internalOnConnectionStateChangeHandler := internalOnConnectionStateChangeHandler t;
     onSelectedCandidatePairChangeHandler := onSelectedCandidatePairChangeHandler t;
     state := s; gatherer := gatherer t; conn := conn t; mux := mux t;
     ctx := ctx t; ctxCancel := ctxCancel t |}.

Definition set_gatherer (g : option GathererRef) (t : ICETransport) : ICETransport :=
  {| role := role t;
     onConnectionStateChangeHandler := onConnectionStateChangeHandler t;
     internalOnConnectionStateChangeHandler := internalOnConnectionStateChangeHandler t;
     onSelectedCandidatePairChangeHandler := onSelectedCandidatePairChangeHandler t;
     state := state t; gatherer := g; conn := conn t; mux := mux t;
     ctx := ctx t; ctxCancel := ctxCancel t |}.

Definition set_conn (c : option ConnRef) (t : ICETransport) : ICETransport :=
  {| role := role t;
     onConnectionStateChangeHandler := onConnectionStateChangeHandler t;
     internalOnConnectionStateChangeHandler := internalOnConnectionStateChangeHandler t;
     onSelectedCandidatePairChangeHandler := onSelectedCandidatePairChangeHandler t;
     state := state t; gatherer := gatherer t; conn := c; mux := mux t;
     ctx := ctx t; ctxCancel := ctxCancel t |}.

Definition set_mux (m : option MuxRef) (t : ICETransport) : ICETransport :=
  {| role := role t;
     onConnectionStateChangeHandler := onConnectionStateChangeHandler t;
     internalOnConnectionStateChangeHandler := internalOnConnectionStateChangeHandler t;
     onSelectedCandidatePairChangeHandler := onSelectedCandidatePairChangeHandler t;
     state := state t; gatherer := gatherer t; conn := conn t; mux := m;
     ctx := ctx t; ctxCancel := ctxCancel t |}.

Definition set_ctx (c : CtxRef) (t : ICETransport) : ICETransport :=
  {| role := role t;
     onConnectionStateChangeHandler := onConnectionStateChangeHandler t;
     internalOnConnectionStateChangeHandler := internalOnConnectionStateChangeHandler t;
     onSelectedCandidatePairChangeHandler := onSelectedCandidatePairChangeHandler t;
     state := state t; gatherer := gatherer t; conn := conn t; mux := mux t;
     ctx := Some c; ctxCancel := Some c |}.

Definition set_onConnectionStateChangeHandler (h : option (option HandlerRef))
    (t : ICETransport) : ICETransport :=
  {| role := role t;
     onConnectionStateChangeHandler := h;
     internalOnConnectionStateChangeHandler := internalOnConnectionStateChangeHandler t;
     onSelectedCandidatePairChangeHandler := onSelectedCandidatePairChangeHandler t;
     state := state t; gatherer := gatherer t; conn := conn t; mux := mux t;
     ctx := ctx t; ctxCancel := ctxCancel t |}.

Definition set_onSelectedCandidatePairChangeHandler (h : option (option HandlerRef))
    (t : ICETransport) : ICETransport :=
  {| role := role t;
     onConnectionStateChangeHandler := onConnectionStateChangeHandler t;
     internalOnConnectionStateChangeHandler := internalOnConnectionStateChangeHandler t;
     onSelectedCandidatePairChangeHandler := h;
     state := state t; gatherer := gatherer t; conn := conn t; mux := mux t;
     ctx := ctx t; ctxCancel := ctxCancel t |}.

(** ** The methods *)

(** [t.gatherer.getAgent()]: the receiver of [getAgent] is dereferenced,
    a nil gatherer panics. *)
Definition getAgent : M (option AgentRef) :=
  t <- get ;;
  match gatherer t with
  | None => panic
  | Some g => peek (gatherer_getAgent g)
  end.

Definition setState (i : ICETransportState) : M unit :=
  modify (set_state (Some i)).

Definition State : M ICETransportState :=
  t <- get ;;
  match state t with
  | Some v => ret v
  | None => ret ICETransportStateUnknown
  end.

Definition NewICETransport (g : option GathererRef) : ICETransport :=
  {| role := ICERoleUnknown;
     onConnectionStateChangeHandler := None;
     internalOnConnectionStateChangeHandler := None;
     onSelectedCandidatePairChangeHandler := None;
     state := Some ICETransportStateNew;
     gatherer := g; conn := None; mux := None;
     ctx := None; ctxCancel := None |}.

Definition ensureGatherer : M (option error) :=
  t <- get ;;
  match gatherer t with
  | None => ret (Some (Err errICEGathererNotStarted))
  | Some g =>
      a <- peek (gatherer_getAgent g) ;;
      match a with
      | None =>
          e <- call (CreateAgent g) (gatherer_createAgent g) ;;
          match e with
          | Some err => ret (Some err)
          | None => ret None
          end
      | Some _ => ret None
      end
  end.

(** *** Start

    [Start] holds the lock from its entry to the [Unlock] before the
    switch on the role ([Start_setup]), performs the dial or accept
    without it ([Start_connect]), and takes it again to publish the
    connection ([Start_finish]). *)

Record StartLocals := {
  start_agent : AgentRef;     (* agent *)
  start_role : ICERole        (* *role *)
}.

Definition Start_setup (gathererArg : option GathererRef)
    (roleArg : option ICERole) : M (error + StartLocals) :=
  s <- State ;;
  if negb (ICETransportState_eqb s ICETransportStateNew)
  then ret (inl (Err errICETransportNotInNew))
  else
    match gathererArg with
    | Some g => modify (set_gatherer (Some g))
    | None => ret tt
    end ;;
    e <- ensureGatherer ;;
    match e with
    | Some err => ret (inl err)
    | None =>
    a <- getAgent ;;
    match a with
    | None => ret (inl (Wrapf errICEAgentNotExist "unable to start ICETransport"))
    | Some agent =>
    e <- call (AgentOnConnectionStateChange agent)
              (agent_OnConnectionStateChange agent) ;;
    match e with
    | Some err => ret (inl err)
    | None =>
    e <- call (AgentOnSelectedCandidatePairChange agent)
              (agent_OnSelectedCandidatePairChange agent) ;;
    match e with
    | Some err => ret (inl err)
    | None =>
    let r := match roleArg with
             | None => ICERoleControlled
             | Some r => r
             end in
    modify (set_role r) ;;
    c <- call WithCancel context_WithCancel ;;
    modify (set_ctx c) ;;
    ret (inr {| start_agent := agent; start_role := r |})
    end end end end.

(** The switch on [*role], with the lock released. *)
Definition Start_connect (params : ICEParameters) (l : StartLocals)
    : M (option ConnRef * option error) :=
  t <- get ;;
  if start_role l =? ICERoleControlling then
    call (Dial (start_agent l) (ctx t) (UsernameFragment params) (Password params))
         (agent_Dial (start_agent l) (ctx t) (UsernameFragment params) (Password params))
  else if start_role l =? ICERoleControlled then
    call (Accept (start_agent l) (ctx t) (UsernameFragment params) (Password params))
         (agent_Accept (start_agent l) (ctx t) (UsernameFragment params) (Password params))
  else ret (None, Some (Err errICERoleUnknown)).

(** From the second [t.lock.Lock()] to the end. *)
Definition Start_finish (r : option ConnRef * option error) : M (option error) :=
  let (iceConn, err) := r in
  match err with
  | Some e => ret (Some e)
  | None =>
      s <- State ;;
      if ICETransportState_eqb s ICETransportStateClosed
      then ret (Some (Err errICETransportClosed))
      else
        modify (set_conn iceConn) ;;
        t <- get ;;
        match gatherer t with
        | None => panic
        | Some g =>
            mtu <- peek (gatherer_getReceiveMTU g) ;;
            m <- call (NewMux (conn t) mtu) (mux_NewMux (conn t) mtu) ;;
            modify (set_mux (Some m)) ;;
            ret None
        end
  end.

(** The whole method, when no other operation runs in between. *)
Definition Start (gathererArg : option GathererRef) (params : ICEParameters)
    (roleArg : option ICERole) : M (option error) :=
  x <- Start_setup gathererArg roleArg ;;
  match x with
  | inl err => ret (Some err)
  | inr l =>
      r <- Start_connect params l ;;
      Start_finish r
  end.

(** *** restart *)

Definition restart : M (option error) :=
  a <- getAgent ;;
  match a with
  | None => ret (Some (Wrapf errICEAgentNotExist "unable to restart ICETransport"))
  | Some agent =>
      e <- call (AgentRestart agent) (agent_Restart agent) ;;
      match e with
      | Some err => ret (Some err)
      | None =>
          t <- get ;;
          match gatherer t with
          | None => panic
          | Some g => call (Gather g) (gatherer_Gather g)
          end
      end
  end.

(** *** Stop, GracefulStop

    [stop] holds the lock while it stores the state, cancels and takes its
    two snapshots ([stop_locked]); the closes run after [Unlock]
    ([stop_close]). *)

Definition stop_locked : M (option MuxRef * option GathererRef) :=
  setState ICETransportStateClosed ;;
  t <- get ;;
  match ctxCancel t with
  | Some c => call (Cancel c) (context_cancel c)
  | None => ret tt
  end ;;
  t <- get ;;
  ret (mux t, gatherer t).

Definition stop_close (shouldGracefullyClose : bool)
    (snapshot : option MuxRef * option GathererRef) : M (option error) :=
  let (mux, gatherer) := snapshot in
  match mux with
  | Some m =>
      closeErrs <-
        match shouldGracefullyClose, gatherer with
        | true, Some g =>
            e <- call (GathererGracefulClose g) (gatherer_GracefulClose g) ;;
            ret [e]
        | _, _ => ret []
        end ;;
      e <- call (MuxClose m) (mux_Close m) ;;
      ret (FlattenErrs (closeErrs ++ [e]))
  | None =>
      match gatherer with
      | Some g =>
          if shouldGracefullyClose
          then call (GathererGracefulClose g) (gatherer_GracefulClose g)
          else call (GathererClose g) (gatherer_Close g)
      | None => ret None
      end
  end.

Definition stop (shouldGracefullyClose : bool) : M (option error) :=
  snapshot <- stop_locked ;;
  stop_close shouldGracefullyClose snapshot.

Definition Stop : M (option error) := stop false.

Definition GracefulStop : M (option error) := stop true.

(** *** Handlers *)

Definition OnSelectedCandidatePairChange (f : option HandlerRef) : M unit :=
  modify (set_onSelectedCandidatePairChangeHandler (Some f)).

Definition onSelectedCandidatePairChange (l r : ICECandidate) : M unit :=
  t <- get ;;
  match onSelectedCandidatePairChangeHandler t with
  | Some (Some h) => call (PairHandler h l r) (handler_pair h l r)
  | Some None => panic      (* call of a nil func *)
  | None => ret tt
  end.

Definition OnConnectionStateChange (f : option HandlerRef) : M unit :=
  modify (set_onConnectionStateChangeHandler (Some f)).

Definition onConnectionStateChange (s : ICETransportState) : M unit :=
  t <- get ;;
  match onConnectionStateChangeHandler t with
  | Some (Some h) => call (StateHandler h s) (handler_state h s)
  | Some None => panic      (* call of a nil func *)
  | None => ret tt
  end ;;
  t <- get ;;
  match internalOnConnectionStateChangeHandler t with
  | Some (Some h) => call (StateHandler h s) (handler_state h s)
  | Some None => panic
  | None => ret tt
  end.

(** The two functions [Start] registers on the agent; the agent calls
    them from its own goroutine, without the transport's lock. *)
Definition connectionStateCallback (iceState : ice_ConnectionState) : M unit :=
  let s := newICETransportStateFromICE iceState in
  setState s ;;
  onConnectionStateChange s.

Definition selectedCandidatePairCallback (l r : ice_Candidate) : M unit :=
  let (candidates, err) := newICECandidatesFromICE [l; r] in
  match err with
  | Some _ => ret tt      (* logged, notification dropped *)
  | None =>
      match candidates with
      | c0 :: c1 :: _ => onSelectedCandidatePairChange c0 c1
      | _ => panic        (* index out of range *)
      end
  end.

(** *** Accessors and mutators *)

Definition Role : M ICERole :=
  t <- get ;;
  ret (role t).

(** The [for ... range remoteCandidates] loop of [SetRemoteCandidates]. *)
Fixpoint SetRemoteCandidates_loop (agent : AgentRef)
    (remoteCandidates : list ICECandidate) : M (option error) :=
  match remoteCandidates with
  | [] => ret None
  | c :: rest =>
      let (i, err) := toICE c in
      match err with
      | Some e => ret (Some e)
      | None =>
          e <- call (AgentAddRemoteCandidate agent (Some i))
                    (agent_AddRemoteCandidate agent (Some i)) ;;
          match e with
          | Some e => ret (Some e)
          | None => SetRemoteCandidates_loop agent rest
          end
      end
  end.

Definition SetRemoteCandidates (remoteCandidates : list ICECandidate)
    : M (option error) :=
  e <- ensureGatherer ;;
  match e with
  | Some err => ret (Some err)
  | None =>
      a <- getAgent ;;
      match a with
      | None => ret (Some (Wrapf errICEAgentNotExist "unable to set remote candidates"))
      | Some agent => SetRemoteCandidates_loop agent remoteCandidates
      end
  end.

Definition AddRemoteCandidate (remoteCandidate : option ICECandidate)
    : M (option error) :=
  e <- ensureGatherer ;;
  match e with
  | Some err => ret (Some err)
  | None =>
      let (c, err) :=
        match remoteCandidate with
        | Some rc => let (i, err) := toICE rc in (Some i, err)
        | None => (None, None)
        end in
      match err with
      | Some e => ret (Some e)
      | None =>
          a <- getAgent ;;
          match a with
          | None => ret (Some (Wrapf errICEAgentNotExist "unable to add remote candidates"))
          | Some agent =>
              call (AgentAddRemoteCandidate agent c) (agent_AddRemoteCandidate agent c)
          end
      end
  end.

Definition GetLocalParameters : M (option ICEParameters * option error) :=
  e <- ensureGatherer ;;
  match e with
  | Some err => ret (None, Some err)
  | None =>
      t <- get ;;
      match gatherer t with
      | None => panic
      | Some g =>
          r <- call (GathererGetLocalParameters g) (gatherer_GetLocalParameters g) ;;
          ret (Some (fst r), snd r)
      end
  end.

Definition newEndpoint : M nat :=
  t <- get ;;
  match mux t with
  | None => panic
  | Some m => call (MuxNewEndpoint m) (mux_NewEndpoint m)
  end.

Definition haveRemoteCredentialsChange (newUfrag newPwd : string) : M bool :=
  a <- getAgent ;;
  match a with
  | None => ret false
  | Some agent =>
      r <- call (AgentGetRemoteUserCredentials agent)
                (agent_GetRemoteUserCredentials agent) ;;
      match r with
      | (_, _, Some _) => ret false
      | (uFrag, uPwd, None) =>
          ret (negb (String.eqb uFrag newUfrag) || negb (String.eqb uPwd newPwd))
      end
  end.

Definition setRemoteCredentials (newUfrag newPwd : string) : M (option error) :=
  a <- getAgent ;;
  match a with
  | None => ret (Some (Wrapf errICEAgentNotExist "unable to SetRemoteCredentials"))
  | Some agent =>
      call (AgentSetRemoteCredentials agent newUfrag newPwd)
           (agent_SetRemoteCredentials agent newUfrag newPwd)
  end.

(** [GetSelectedCandidatePair] takes no lock. *)
Definition GetSelectedCandidatePair
    : M (option (ICECandidate * ICECandidate) * option error) :=
  a <- getAgent ;;
  match a with
  | None => ret (None, None)
  | Some agent =>
      r <- call (AgentGetSelectedCandidatePair agent)
                (agent_GetSelectedCandidatePair agent) ;;
      match r with
      | (None, err) => ret (None, err)
      | (Some _, Some err) => ret (None, Some err)
      | (Some (icel, icer), None) =>
          let (l, err) := newICECandidateFromICE icel in
          match err with
          | Some e => ret (None, Some e)
          | None =>
              let (r, err) := newICECandidateFromICE icer in
              match err with
              | Some e => ret (None, Some e)
              | None => ret (Some (l, r), None)
              end
          end
      end
  end.

Definition GetSelectedCandidatePairStats : M (nat * bool) :=
  t <- get ;;
  match gatherer t with
  | None => panic
  | Some g => peek (gatherer_getSelectedCandidatePairStats g)
  end.

(** [collectStats], the timestamp and the constant fields left out. *)
Definition collectStats : M unit :=
  t <- get ;;
  let c := conn t in
  call CollectorCollecting collector_Collecting ;;
  counters <-
    match c with
    | Some c =>
        sent <- peek (conn_BytesSent c) ;;
        received <- peek (conn_BytesReceived c) ;;
        ret (sent, received)
    | None => ret (0, 0)
    end ;;
  call (CollectorCollect (fst counters) (snd counters))
       (collector_Collect (fst counters) (snd counters)).

(** [setRemoteCredentials] as the specification words it, for comparison
    with the method above: "All of the above require ensureGatherer to have
    succeeded (auto-creating the agent lazily if the gatherer exists but
    has no agent yet)", then "fails with AgentUnavailable if no agent
    exists". *)
Definition setRemoteCredentials_as_specified (newUfrag newPwd : string)
    : M (option error) :=
  e <- ensureGatherer ;;
  match e with
  | Some err => ret (Some err)
  | None => setRemoteCredentials newUfrag newPwd
  end.

(** ** Operations of the transport, one critical section at a time

    The methods that take the lock exclude each other, so a schedule
    interleaves whole critical sections.  The two functions registered on
    the agent and the lock-free accessors are scheduled at the same
    granularity. *)

Inductive Op :=
| OpStartSetup (gathererArg : option GathererRef) (roleArg : option ICERole)
| OpStartConnect (params : ICEParameters) (l : StartLocals)
| OpStartFinish (r : option ConnRef * option error)
| OpRestart
| OpStopLocked
| OpStopClose (shouldGracefullyClose : bool)
              (snapshot : option MuxRef * option GathererRef)
| OpOnSelectedCandidatePairChange (f : option HandlerRef)
| OpOnConnectionStateChange (f : option HandlerRef)
| OpConnectionStateCallback (iceState : ice_ConnectionState)
| OpSelectedCandidatePairCallback (l r : ice_Candidate)
| OpRole
| OpState
| OpSetRemoteCandidates (remoteCandidates : list ICECandidate)
| OpAddRemoteCandidate (remoteCandidate : option ICECandidate)
| OpGetLocalParameters
| OpNewEndpoint
| OpHaveRemoteCredentialsChange (newUfrag newPwd : string)
| OpSetRemoteCredentials (newUfrag newPwd : string)
| OpGetSelectedCandidatePair
| OpGetSelectedCandidatePairStats
| OpCollectStats
| OpCollaborators (e : Env).     (* the collaborators move on their own *)

(** The world an outcome leaves behind. *)
Definition final {A} (o : Outcome A) : World :=
  match o with
  | Returns _ w => w
  | Panics w => w
  end.

Definition run (o : Op) (w : World) : World :=
  match o with
  | OpStartSetup g r => final (Start_setup g r w)
  | OpStartConnect p l => final (Start_connect p l w)
  | OpStartFinish r => final (Start_finish r w)
  | OpRestart => final (restart w)
  | OpStopLocked => final (stop_locked w)
  | OpStopClose b s => final (stop_close b s w)
  | OpOnSelectedCandidatePairChange f => final (OnSelectedCandidatePairChange f w)
  | OpOnConnectionStateChange f => final (OnConnectionStateChange f w)
  | OpConnectionStateCallback i => final (connectionStateCallback i w)
  | OpSelectedCandidatePairCallback l r => final (selectedCandidatePairCallback l r w)
  | OpRole => final (Role w)
  | OpState => final (State w)
  | OpSetRemoteCandidates cs => final (SetRemoteCandidates cs w)
  | OpAddRemoteCandidate c => final (AddRemoteCandidate c w)
  | OpGetLocalParameters => final (GetLocalParameters w)
  | OpNewEndpoint => final (newEndpoint w)
  | OpHaveRemoteCredentialsChange u p => final (haveRemoteCredentialsChange u p w)
  | OpSetRemoteCredentials u p => final (setRemoteCredentials u p w)
  | OpGetSelectedCandidatePair => final (GetSelectedCandidatePair w)
  | OpGetSelectedCandidatePairStats => final (GetSelectedCandidatePairStats w)
  | OpCollectStats => final (collectStats w)
  | OpCollaborators e => {| tr := tr w; env := e; calls := calls w |}
  end.

(** Worlds reachable from a fresh transport by any schedule of critical
    sections.  Every real interleaving is such a schedule. *)
Inductive reachable : World -> Prop :=
| reachable_new g e :
    reachable {| tr := NewICETransport g; env := e; calls := [] |}
| reachable_run o w : reachable w -> reachable (run o w).

End Transport.

Arguments Panics {C A} w.

(** ** Vocabulary of the statements *)

(** What [State] returns on a transport. *)
Definition current_state (t : ICETransport) : ICETransportState :=
  match state t with
  | Some v => v
  | None => ICETransportStateUnknown
  end.

(** The calls that open a connection. *)
Definition is_connect (c : Call) : bool :=
  match c with
  | Dial _ _ _ _ | Accept _ _ _ _ => true
  | _ => false
  end.

(** The role [Start] works with: [*role] after the nil check. *)
Definition role_or_default (roleArg : option ICERole) : ICERole :=
  match roleArg with
  | Some r => r
  | None => ICERoleControlled
  end.

(** A schedule of critical sections, run from left to right. *)
Definition runs {C : Collaborators} (os : list Op) (w : World) : World :=
  fold_left (fun w o => run o w) os w.

(** The operations that cannot move the state away from Closed: all but a
    notification of the agent that translates to another state. *)
Definition keeps_closed {C : Collaborators} (o : Op) : bool :=
  match o with
  | OpConnectionStateCallback i =>
      ICETransportState_eqb (newICETransportStateFromICE i) ICETransportStateClosed
  | _ => true
  end.

Definition is_StartSetup {C : Collaborators} (o : Op) : bool :=
  match o with
  | OpStartSetup _ _ => true
  | _ => false
  end.

(** "Calling Stop twice returns successfully (no error) both times." *)
Definition Stop_twice_succeeds {C : Collaborators} (w : World) : Prop :=
  exists w1 w2, Stop w = Returns None w1 /\ Stop w1 = Returns None w2.

(** The closes of the collaborators never fail. *)
Definition closes_succeed (C : Collaborators) : Prop :=
  (forall g e, fst (gatherer_Close g e) = None) /\
  (forall m e, fst (mux_Close m e) = None).

(** [added agent cs e e']: every candidate of [cs] converts and the agent
    accepts them one after the other, which takes its state from [e] to
    [e']. *)
Inductive added {C : Collaborators} (agent : AgentRef)
    : list ICECandidate -> Env -> Env -> Prop :=
| added_nil e : added agent [] e e
| added_cons c i rest e e1 e2 :
    toICE c = (i, None) ->
    agent_AddRemoteCandidate agent (Some i) e = (None, e1) ->
    added agent rest e1 e2 ->
    added agent (c :: rest) e e2.

(** The call that applies candidate [c] to the agent. *)
Definition add_call {C : Collaborators} (agent : AgentRef) (c : ICECandidate) : Call :=
  AgentAddRemoteCandidate agent (Some (fst (toICE c))).

(** ** A test double for the collaborators

    One gatherer with at most one agent; the answers of the fallible calls
    are read from the double's own state, so that a run can be scripted. *)

Record DoubleEnv := {
  d_agent : option AgentRef;                      (* the gatherer's agent *)
  d_closeErr : option error;                      (* gatherer Close / GracefulClose *)
  d_muxCloseErr : option error;                   (* mux Close *)
  d_connect : option ConnRef * option error;      (* Dial / Accept *)
  d_refused : list ice_Candidate;                 (* candidates the agent rejects *)
  d_added : list (option ice_Candidate);          (* candidates the agent holds *)
  d_credentials : string * string                 (* remote credentials *)
}.

Definition d_with_agent (a : option AgentRef) (e : DoubleEnv) : DoubleEnv :=
  {| d_agent := a; d_closeErr := d_closeErr e; d_muxCloseErr := d_muxCloseErr e;
     d_connect := d_connect e; d_refused := d_refused e; d_added := d_added e;
     d_credentials := d_credentials e |}.

Definition d_add (c : option ice_Candidate) (e : DoubleEnv) : option error * DoubleEnv :=
  match c with
  | Some i =>
      if existsb (Nat.eqb i) (d_refused e)
      then (Some (Err (errExternal i)), e)
      else (None,
            {| d_agent := d_agent e; d_closeErr := d_closeErr e;
               d_muxCloseErr := d_muxCloseErr e; d_connect := d_connect e;
               d_refused := d_refused e; d_added := d_added e ++ [c];
               d_credentials := d_credentials e |})
  | None => (None, e)
  end.

Definition d_set_credentials (u p : string) (e : DoubleEnv) : DoubleEnv :=
  {| d_agent := d_agent e; d_closeErr := d_closeErr e; d_muxCloseErr := d_muxCloseErr e;
     d_connect := d_connect e; d_refused := d_refused e; d_added := d_added e;
     d_credentials := (u, p) |}.

(** Candidates from 100 on do not convert. *)
Definition d_toICE (c : ICECandidate) : ice_Candidate * option error :=
  if Nat.leb 100 c then (O, Some (Err (errExternal c))) else (c, None).

Definition d_fromICE (l : list ice_Candidate) : list ICECandidate * option error :=
  match filter (Nat.leb 100) l with
  | [] => (l, None)
  | c :: _ => ([], Some (Err (errExternal c)))
  end.

Definition d_state (i : ice_ConnectionState) : ICETransportState :=
  match i with
  | 1%nat => ICETransportStateNew
  | 2%nat => ICETransportStateChecking
  | 3%nat => ICETransportStateConnected
  | 4%nat => ICETransportStateCompleted
  | 5%nat => ICETransportStateFailed
  | 6%nat => ICETransportStateDisconnected
  | 7%nat => ICETransportStateClosed
  | _ => ICETransportStateUnknown
  end.

#[local] Instance double : Collaborators := {|
  Env := DoubleEnv;
  gatherer_getAgent := fun _ e => d_agent e;
  gatherer_createAgent := fun g e => (None, d_with_agent (Some g) e);
  gatherer_Gather := fun _ e => (None, e);
  gatherer_Close := fun _ e => (d_closeErr e, d_with_agent None e);
  gatherer_GracefulClose := fun _ e => (d_closeErr e, d_with_agent None e);
  gatherer_GetLocalParameters :=
    fun _ e => ({| UsernameFragment := "local"; Password := "secret" |}, None, e);
  gatherer_getReceiveMTU := fun _ _ => 1460;
  gatherer_getSelectedCandidatePairStats := fun _ _ => (O, false);
  agent_OnConnectionStateChange := fun _ e => (None, e);
  agent_OnSelectedCandidatePairChange := fun _ e => (None, e);
  agent_Dial := fun _ _ _ _ e => (d_connect e, e);
  agent_Accept := fun _ _ _ _ e => (d_connect e, e);
  agent_AddRemoteCandidate := fun _ c e => d_add c e;
  agent_Restart := fun _ e => (None, e);
  agent_SetRemoteCredentials := fun _ u p e => (None, d_set_credentials u p e);
  agent_GetRemoteUserCredentials :=
    fun _ e => (fst (d_credentials e), snd (d_credentials e), None, e);
  agent_GetSelectedCandidatePair := fun _ e => (None, None, e);
  context_WithCancel := fun e => (1%nat, e);
  context_cancel := fun _ e => (tt, e);
  mux_NewMux := fun _ _ e => (1%nat, e);
  mux_Close := fun _ e => (d_muxCloseErr e, e);
  mux_NewEndpoint := fun _ e => (O, e);
  handler_state := fun _ _ e => (tt, e);
  handler_pair := fun _ _ _ e => (tt, e);
  conn_BytesSent := fun _ _ => 0;
  conn_BytesReceived := fun _ _ => 0;
  collector_Collecting := fun e => (tt, e);
  collector_Collect := fun _ _ e => (tt, e);
  toICE := d_toICE;
  newICECandidateFromICE := fun i => (i, None);
  newICECandidatesFromICE := d_fromICE;
  newICETransportStateFromICE := d_state
|}.

(** A gatherer (reference 0) that has not created its agent yet, and whose
    collaborators answer without error; a connection (reference 5) is what
    a dial or accept obtains. *)
Definition d_env0 : DoubleEnv :=
  {| d_agent := None; d_closeErr := None; d_muxCloseErr := None;
     d_connect := (Some 5%nat, None); d_refused := []; d_added := [];
     d_credentials := ("", "") |}.

Definition d_world (t : ICETransport) (e : DoubleEnv) : @World double :=
  {| tr := t; env := e; calls := [] |}.

Definition d_new : @World double := d_world (NewICETransport (Some O)) d_env0.

Definition uf1pw1 : ICEParameters :=
  {| UsernameFragment := "uf1"; Password := "pw1" |}.

Definition d_connected : @World double :=
  d_world (set_state (Some ICETransportStateConnected)
             (set_mux (Some 1%nat) (set_conn (Some 5%nat)
                (set_role ICERoleControlling (NewICETransport (Some O))))))
          (d_with_agent (Some O) d_env0).

(** A gatherer whose Close fails. *)
Definition d_failing_close : @World double :=
  d_world (NewICETransport (Some O))
    {| d_agent := Some O; d_closeErr := Some (Err (errExternal 9));
       d_muxCloseErr := None; d_connect := (Some 5%nat, None);
       d_refused := []; d_added := []; d_credentials := ("", "") |}.

(** An agent that rejects candidate 3. *)
Definition d_rejecting : @World double :=
  d_world (NewICETransport (Some O))
    {| d_agent := Some O; d_closeErr := None;
       d_muxCloseErr := None; d_connect := (Some 5%nat, None);
       d_refused := [3%nat]; d_added := []; d_credentials := ("", "") |}.

(** The double with closes that always succeed. *)
Definition d_closing : Collaborators := {|
  Env := DoubleEnv;
  gatherer_getAgent := @gatherer_getAgent double;
  gatherer_createAgent := @gatherer_createAgent double;
  gatherer_Gather := @gatherer_Gather double;
  gatherer_Close := fun _ e => (None, d_with_agent None e);
  gatherer_GracefulClose := fun _ e => (None, d_with_agent None e);
  gatherer_GetLocalParameters := @gatherer_GetLocalParameters double;
  gatherer_getReceiveMTU := @gatherer_getReceiveMTU double;
  gatherer_getSelectedCandidatePairStats :=
    @gatherer_getSelectedCandidatePairStats double;
  agent_OnConnectionStateChange := @agent_OnConnectionStateChange double;
  agent_OnSelectedCandidatePairChange := @agent_OnSelectedCandidatePairChange double;
  agent_Dial := @agent_Dial double;
  agent_Accept := @agent_Accept double;
  agent_AddRemoteCandidate := @agent_AddRemoteCandidate double;
  agent_Restart := @agent_Restart double;
  agent_SetRemoteCredentials := @agent_SetRemoteCredentials double;
  agent_GetRemoteUserCredentials := @agent_GetRemoteUserCredentials double;
  agent_GetSelectedCandidatePair := @agent_GetSelectedCandidatePair double;
  context_WithCancel := @context_WithCancel double;
  context_cancel := @context_cancel double;
  mux_NewMux := @mux_NewMux double;
  mux_Close := fun _ e => (None, e);
  mux_NewEndpoint := @mux_NewEndpoint double;
  handler_state := @handler_state double;
  handler_pair := @handler_pair double;
  conn_BytesSent := @conn_BytesSent double;
  conn_BytesReceived := @conn_BytesReceived double;
  collector_Collecting := @collector_Collecting double;
  collector_Collect := @collector_Collect double;
  toICE := d_toICE;
  newICECandidateFromICE := @newICECandidateFromICE double;
  newICECandidatesFromICE := @newICECandidatesFromICE double;
  newICETransportStateFromICE := d_state
|}.

(** A started transport on [d_closing]. *)
Definition d_closing_started : @World d_closing :=
  @Build_World d_closing (tr d_connected) (d_with_agent (Some O) d_env0) [].

(** The fresh transport after the first critical section of [Start]. *)
Definition d_setup (roleArg : option ICERole) : @World double :=
  run (OpStartSetup None roleArg) d_new.

Definition d_locals (roleArg : option ICERole) : StartLocals :=
  {| start_agent := O; start_role := role_or_default roleArg |}.


(** A transport whose [Start] went through. *)
Definition d_started : @World double :=
  runs [OpStartSetup None (Some ICERoleControlling);
        OpStartConnect uf1pw1 (d_locals (Some ICERoleControlling));
        OpStartFinish (Some 5%nat, None)] d_new.


(** The two writers of the state: the locked part of [stop] and the
    function registered with the agent's OnConnectionStateChange. *)
Definition writes_state {C : Collaborators} (o : Op) : bool :=
  match o with
  | OpStopLocked | OpConnectionStateCallback _ => true
  | _ => false
  end.

(** A transport created without a gatherer. *)
Definition d_no_gatherer : @World double :=
  d_world (NewICETransport None) d_env0.

(** The calls the first section of [Start] makes only when it lets the
    method go on or that open a connection. *)
Definition is_connect_or_context (c : Call) : bool :=
  match c with
  | Dial _ _ _ _ | Accept _ _ _ _ | WithCancel => true
  | _ => false
  end.

(** A gatherer that cannot create its agent: the agent stays absent. *)
Definition d_agentless : Collaborators := {|
  Env := DoubleEnv;
  gatherer_getAgent := fun _ _ => None;
  gatherer_createAgent := fun _ e => (Some (Err (errExternal 8)), e);
  gatherer_Gather := @gatherer_Gather double;
  gatherer_Close := @gatherer_Close double;
  gatherer_GracefulClose := @gatherer_GracefulClose double;
  gatherer_GetLocalParameters := @gatherer_GetLocalParameters double;
  gatherer_getReceiveMTU := @gatherer_getReceiveMTU double;
  gatherer_getSelectedCandidatePairStats :=
    @gatherer_getSelectedCandidatePairStats double;
  agent_OnConnectionStateChange := @agent_OnConnectionStateChange double;
  agent_OnSelectedCandidatePairChange := @agent_OnSelectedCandidatePairChange double;
  agent_Dial := @agent_Dial double;
  agent_Accept := @agent_Accept double;
  agent_AddRemoteCandidate := @agent_AddRemoteCandidate double;
  agent_Restart := @agent_Restart double;
  agent_SetRemoteCredentials := @agent_SetRemoteCredentials double;
  agent_GetRemoteUserCredentials := @agent_GetRemoteUserCredentials double;
  agent_GetSelectedCandidatePair := @agent_GetSelectedCandidatePair double;
  context_WithCancel := @context_WithCancel double;
  context_cancel := @context_cancel double;
  mux_NewMux := @mux_NewMux double;
  mux_Close := @mux_Close double;
  mux_NewEndpoint := @mux_NewEndpoint double;
  handler_state := @handler_state double;
  handler_pair := @handler_pair double;
  conn_BytesSent := @conn_BytesSent double;
  conn_BytesReceived := @conn_BytesReceived double;
  collector_Collecting := @collector_Collecting double;
  collector_Collect := @collector_Collect double;
  toICE := d_toICE;
  newICECandidateFromICE := @newICECandidateFromICE double;
  newICECandidatesFromICE := @newICECandidatesFromICE double;
  newICETransportStateFromICE := d_state
|}.

(** A fresh transport bound to gatherer 3, on [d_agentless]. *)
Definition d_agentless_new : @World d_agentless :=
  @Build_World d_agentless (NewICETransport (Some 3%nat)) d_env0 [].

(** The operations that assign a field of the transport: the first and
    last sections of [Start], the locked part of [stop], the two handler
    setters and the agent's state notification. *)
Definition writes_transport {C : Collaborators} (o : Op) : bool :=
  match o with
  | OpStartSetup _ _ | OpStartFinish _ | OpStopLocked
  | OpOnSelectedCandidatePairChange _ | OpOnConnectionStateChange _
  | OpConnectionStateCallback _ => true
  | _ => false
  end.

(** What an immediate [Stop] does on a transport [t], read off its
    fields: the cancel call and the state [e] of the collaborators after
    it, the one close call, and the error of that close when it is made
    with the collaborators in state [e]: [util.FlattenErrs] of the answer
    of [mux.Close] if there is a multiplexer, else the answer of
    [gatherer.Close] if there is a gatherer, else nil. *)
Definition Stop_cancel_call (t : ICETransport) : list Call :=
  match ctxCancel t with
  | Some c => [Cancel c]
  | None => []
  end.

Definition Stop_cancelled {C : Collaborators} (t : ICETransport) (e : Env) : Env :=
  match ctxCancel t with
  | Some c => snd (context_cancel c e)
  | None => e
  end.

Definition Stop_close_call (t : ICETransport) : list Call :=
  match mux t with
  | Some m => [MuxClose m]
  | None => match gatherer t with
            | Some g => [GathererClose g]
            | None => []
            end
  end.

Definition Stop_close_error {C : Collaborators} (t : ICETransport) (e : Env)
    : option error :=
  match mux t with
  | Some m => FlattenErrs [fst (mux_Close m e)]
  | None => match gatherer t with
            | Some g => fst (gatherer_Close g e)
            | None => None
            end
  end.



(** A transport whose application stored a nil state handler, and one
    with handler 7 for selected pairs. *)
Definition d_nil_handler : @World double :=
  run (OpOnConnectionStateChange None) d_new.

Definition d_pair_handler : @World double :=
  run (OpOnSelectedCandidatePairChange (Some 7%nat)) d_new.

(** ** Properties *)

Section Properties.

Context {C : Collaborators}.

Ltac unfold_monad :=
  unfold bind, ret, get, modify, call, peek, panic in *.

(** Case analysis on whatever the computation branches on next. *)
Ltac branch :=
  match goal with
  | |- context [match ?x with _ => _ end] =>
      lazymatch x with
      | context [match _ with _ => _ end] => fail
      | _ => destruct x eqn:?
      end
  end.

Lemma ICETransportState_eqb_eq a b :
  ICETransportState_eqb a b = true <-> a = b.
Proof.
  split.
  - destruct a, b; simpl; intros H; try reflexivity; discriminate H.
  - intros ->. destruct b; reflexivity.
Qed.

Lemma State_current w : State w = Returns (current_state (tr w)) w.
Proof.
  unfold State, current_state. unfold_monad.
  destruct (state (tr w)); reflexivity.
Qed.

(** C2. A transport whose state is not New refuses [Start] with
    errICETransportNotInNew; the transport, the collaborators and the call
    log are exactly as before: role, gatherer, connection, multiplexer and
    state are untouched and no collaborator was called. *)
Theorem Start_not_in_new
    (gathererArg : option GathererRef) (params : ICEParameters)
    (roleArg : option ICERole) (w : World) :
  current_state (tr w) <> ICETransportStateNew ->
  Start gathererArg params roleArg w
  = Returns (Some (Err errICETransportNotInNew)) w.
Proof.
  intros Hs. unfold Start, Start_setup.
  unfold bind at 1 2. rewrite State_current.
  destruct (ICETransportState_eqb (current_state (tr w)) ICETransportStateNew) eqn:E.
  - apply ICETransportState_eqb_eq in E. contradiction.
  - reflexivity.
Qed.

(** What the first critical section of [Start] has done when it lets the
    method go on: the state was New, the role is stored, and none of the
    calls it made opens a connection. *)
Lemma Start_setup_passed gathererArg roleArg w l w1 :
  Start_setup gathererArg roleArg w = Returns (inr l) w1 ->
  current_state (tr w) = ICETransportStateNew /\
  start_role l = role_or_default roleArg /\
  role (tr w1) = role_or_default roleArg /\
  state (tr w1) = state (tr w) /\
  conn (tr w1) = conn (tr w) /\
  mux (tr w1) = mux (tr w) /\
  exists cs, calls w1 = calls w ++ cs /\ forallb (fun c => negb (is_connect c)) cs = true.
Proof.
  unfold Start_setup. unfold bind at 1. rewrite State_current.
  destruct (ICETransportState_eqb (current_state (tr w)) ICETransportStateNew) eqn:E;
    simpl; [| discriminate].
  apply ICETransportState_eqb_eq in E.
  unfold ensureGatherer, getAgent. unfold_monad.
  destruct gathererArg; simpl;
    repeat (branch; simpl; try discriminate);
    intros H; inversion H; subst; clear H; simpl;
    (repeat split; try assumption; try reflexivity;
     rewrite <- ?app_assoc; simpl; eexists; split; reflexivity).
Qed.

(** The calls of the last section of [Start]: at most the NewMux, never a
    dial or an accept. *)
Lemma Start_finish_calls r w :
  exists rest,
    calls (final (Start_finish r w)) = calls w ++ rest /\
    forallb (fun c => negb (is_connect c)) rest = true.
Proof.
  unfold Start_finish, State. unfold_monad.
  destruct r as [iceConn [e |]]; simpl.
  - exists []. rewrite app_nil_r. split; reflexivity.
  - repeat (branch; simpl);
      first [ exists []; rewrite app_nil_r; split; reflexivity
            | eexists; split; reflexivity ].
Qed.

(** C3. Once the precondition checks of [Start] have passed: with role
    Controlling, [Start] is the agent's Dial with the supplied username
    fragment and password followed by the last section on Dial's answer,
    and Dial is the one connecting call among all the calls of this
    [Start]; with role Controlled the same holds with the agent's Accept
    and the same credentials; with any other role value [Start] returns
    errICERoleUnknown, the switch calls nothing, and no call made by this
    [Start] is a dial or an accept. *)
Theorem Start_role_dispatch
    (gathererArg : option GathererRef) (params : ICEParameters)
    (roleArg : option ICERole) (w w1 : World) (l : StartLocals) :
  Start_setup gathererArg roleArg w = Returns (inr l) w1 ->
  let dial := Dial (start_agent l) (ctx (tr w1))
                   (UsernameFragment params) (Password params) in
  let accept := Accept (start_agent l) (ctx (tr w1))
                       (UsernameFragment params) (Password params) in
  (roleArg = Some ICERoleControlling ->
     Start_connect params l w1
     = call dial (agent_Dial (start_agent l) (ctx (tr w1))
                             (UsernameFragment params) (Password params)) w1 /\
     Start gathererArg params roleArg w
     = bind (call dial (agent_Dial (start_agent l) (ctx (tr w1))
                                   (UsernameFragment params) (Password params)))
            Start_finish w1 /\
     exists before rest,
       calls (final (Start gathererArg params roleArg w))
       = calls w ++ before ++ dial :: rest /\
       forallb (fun c => negb (is_connect c)) before = true /\
       forallb (fun c => negb (is_connect c)) rest = true) /\
  (roleArg = Some ICERoleControlled ->
     Start_connect params l w1
     = call accept (agent_Accept (start_agent l) (ctx (tr w1))
                                 (UsernameFragment params) (Password params)) w1 /\
     Start gathererArg params roleArg w
     = bind (call accept (agent_Accept (start_agent l) (ctx (tr w1))
                                       (UsernameFragment params) (Password params)))
            Start_finish w1 /\
     exists before rest,
       calls (final (Start gathererArg params roleArg w))
       = calls w ++ before ++ accept :: rest /\
       forallb (fun c => negb (is_connect c)) before = true /\
       forallb (fun c => negb (is_connect c)) rest = true) /\
  (forall r, roleArg = Some r ->
     r <> ICERoleControlling -> r <> ICERoleControlled ->
     Start_connect params l w1 = Returns (None, Some (Err errICERoleUnknown)) w1 /\
     Start gathererArg params roleArg w = Returns (Some (Err errICERoleUnknown)) w1 /\
     exists cs, calls w1 = calls w ++ cs /\
                forallb (fun c => negb (is_connect c)) cs = true).
Proof.
  intros Hsetup.
  destruct (Start_setup_passed _ _ _ Hsetup)
    as (_ & Hl & _ & _ & _ & _ & before & Hbefore & Hnc).
  cbv zeta.
  assert (Hstart : forall r w2,
            Start_connect params l w1 = Returns r w2 ->
            Start gathererArg params roleArg w = Start_finish r w2).
  { intros r w2 Hc. unfold Start. unfold bind at 1. rewrite Hsetup.
    unfold bind at 1. rewrite Hc. reflexivity. }
  split; [| split].
  - intros ->.
    assert (Hc : Start_connect params l w1
                 = call (Dial (start_agent l) (ctx (tr w1))
                              (UsernameFragment params) (Password params))
                        (agent_Dial (start_agent l) (ctx (tr w1))
                                    (UsernameFragment params) (Password params)) w1).
    { unfold Start_connect. unfold bind at 1, get at 1. rewrite Hl. reflexivity. }
    split; [exact Hc |]. split.
    + unfold Start. unfold bind at 1. rewrite Hsetup.
      unfold bind at 1 2. rewrite Hc. reflexivity.
    + revert Hc. unfold call at 1.
      destruct (agent_Dial _ _ _ _ _) as [r env']. intros Hc.
      rewrite (Hstart _ _ Hc).
      destruct (Start_finish_calls r
                  {| tr := tr w1; env := env';
                     calls := calls w1 ++
                              [Dial (start_agent l) (ctx (tr w1))
                                    (UsernameFragment params) (Password params)] |})
        as (rest & Hrest & Hnr).
      exists before, rest. rewrite Hrest. simpl. rewrite Hbefore.
      rewrite <- !app_assoc. simpl. auto.
  - intros ->.
    assert (Hc : Start_connect params l w1
                 = call (Accept (start_agent l) (ctx (tr w1))
                                (UsernameFragment params) (Password params))
                        (agent_Accept (start_agent l) (ctx (tr w1))
                                      (UsernameFragment params) (Password params)) w1).
    { unfold Start_connect. unfold bind at 1, get at 1. rewrite Hl. reflexivity. }
    split; [exact Hc |]. split.
    + unfold Start. unfold bind at 1. rewrite Hsetup.
      unfold bind at 1 2. rewrite Hc. reflexivity.
    + revert Hc. unfold call at 1.
      destruct (agent_Accept _ _ _ _ _) as [r env']. intros Hc.
      rewrite (Hstart _ _ Hc).
      destruct (Start_finish_calls r
                  {| tr := tr w1; env := env';
                     calls := calls w1 ++
                              [Accept (start_agent l) (ctx (tr w1))
                                      (UsernameFragment params) (Password params)] |})
        as (rest & Hrest & Hnr).
      exists before, rest. rewrite Hrest. simpl. rewrite Hbefore.
      rewrite <- !app_assoc. simpl. auto.
  - intros r -> Hr1 Hr2.
    assert (Hc : Start_connect params l w1
                 = Returns (None, Some (Err errICERoleUnknown)) w1).
    { unfold Start_connect. unfold bind at 1, get at 1. rewrite Hl. simpl.
      destruct (Z.eqb_spec r ICERoleControlling); [contradiction |].
      destruct (Z.eqb_spec r ICERoleControlled); [contradiction |].
      reflexivity. }
    split; [exact Hc |]. split.
    + rewrite (Hstart _ _ Hc). reflexivity.
    + exists before. split; assumption.
Qed.

(** *** Frame properties of the operations *)

Lemma SetRemoteCandidates_loop_tr agent cs w :
  tr (final (SetRemoteCandidates_loop agent cs w)) = tr w.
Proof.
  revert w. induction cs as [| c rest IH]; intros w; simpl.
  - reflexivity.
  - destruct (toICE c) as [i [e |]]; [reflexivity |].
    unfold bind, call.
    destruct (agent_AddRemoteCandidate agent (Some i) (env w)) as [[e |] env'].
    + reflexivity.
    + rewrite IH. reflexivity.
Qed.

Ltac unfold_methods :=
  unfold Start_setup, Start_connect, Start_finish, restart, stop_locked,
    stop_close, OnSelectedCandidatePairChange, OnConnectionStateChange,
    connectionStateCallback, selectedCandidatePairCallback,
    onConnectionStateChange, onSelectedCandidatePairChange, Role, State,
    SetRemoteCandidates, AddRemoteCandidate, GetLocalParameters, newEndpoint,
    haveRemoteCredentialsChange, setRemoteCredentials,
    GetSelectedCandidatePair, GetSelectedCandidatePairStats, collectStats,
    ensureGatherer, getAgent, setState in *.

Ltac crunch :=
  unfold_methods; unfold_monad; simpl;
  repeat (first [rewrite SetRemoteCandidates_loop_tr | branch]; simpl).


(** Only the last critical section of [Start] writes the connection and
    the multiplexer. *)
Lemma run_conn_mux o w :
  (forall r, o <> OpStartFinish r) ->
  conn (tr (run o w)) = conn (tr w) /\ mux (tr (run o w)) = mux (tr w).
Proof.
  destruct o; simpl; intros Hne;
    try (exfalso; eapply Hne; reflexivity);
    crunch; split; congruence.
Qed.

Lemma Start_finish_closed_eq r w :
  current_state (tr w) = ICETransportStateClosed ->
  Start_finish r w
  = Returns (Some (match snd r with
                   | Some e => e
                   | None => Err errICETransportClosed
                   end)) w.
Proof.
  intros Hs. destruct r as [iceConn [e |]]; simpl; [reflexivity |].
  unfold bind at 1. rewrite State_current, Hs. reflexivity.
Qed.

Lemma run_closed_conn_mux o w :
  current_state (tr w) = ICETransportStateClosed ->
  conn (tr (run o w)) = conn (tr w) /\ mux (tr (run o w)) = mux (tr w).
Proof.
  intros Hs.
  destruct o; try (apply run_conn_mux; discriminate).
  simpl. rewrite Start_finish_closed_eq by assumption. split; reflexivity.
Qed.

Lemma run_keeps_closed o w :
  keeps_closed o = true ->
  current_state (tr w) = ICETransportStateClosed ->
  current_state (tr (run o w)) = ICETransportStateClosed.
Proof.
  intros Hk Hs. destruct o; simpl in *;
    try (rewrite Start_finish_closed_eq by assumption; exact Hs);
    try (apply ICETransportState_eqb_eq in Hk);
    unfold current_state in *;
    crunch; simpl in *; congruence.
Qed.

Lemma runs_closed_conn_mux os w :
  current_state (tr w) = ICETransportStateClosed ->
  forallb keeps_closed os = true ->
  current_state (tr (runs os w)) = ICETransportStateClosed /\
  conn (tr (runs os w)) = conn (tr w) /\ mux (tr (runs os w)) = mux (tr w).
Proof.
  revert w. induction os as [| o os IH]; intros w Hs H; simpl in *.
  - repeat split; assumption.
  - apply andb_prop in H as [Ho Hos].
    destruct (IH (run o w)) as (Hs' & Hc & Hm);
      [apply run_keeps_closed; assumption | assumption |].
    destruct (run_closed_conn_mux o w Hs) as [Hc1 Hm1].
    unfold runs in *. rewrite Hc, Hm. repeat split; assumption.
Qed.


(** C9. With a nil role argument [Start] runs exactly as with role
    Controlled: it does not fail on the missing role.  When its
    precondition checks pass, Controlled is the role it stores and works
    with, and the call it makes next is the agent's Accept with the
    supplied credentials, whose answer it then finishes with. *)
Theorem Start_nil_role_defaults
    (gathererArg : option GathererRef) (params : ICEParameters)
    (w w1 : World) (l : StartLocals) :
  Start_setup gathererArg None w = Returns (inr l) w1 ->
  Start gathererArg params None w
  = Start gathererArg params (Some ICERoleControlled) w /\
  start_role l = ICERoleControlled /\
  role (tr w1) = ICERoleControlled /\
  Start_connect params l w1
  = call (Accept (start_agent l) (ctx (tr w1))
                 (UsernameFragment params) (Password params))
         (agent_Accept (start_agent l) (ctx (tr w1))
                       (UsernameFragment params) (Password params)) w1 /\
  Start gathererArg params None w
  = bind (call (Accept (start_agent l) (ctx (tr w1))
                       (UsernameFragment params) (Password params))
               (agent_Accept (start_agent l) (ctx (tr w1))
                             (UsernameFragment params) (Password params)))
         Start_finish w1.
Proof.
  intros Hsetup.
  destruct (Start_setup_passed _ _ _ Hsetup) as (_ & Hl & Hr & _).
  simpl in Hl, Hr.
  assert (Hc : Start_connect params l w1
               = call (Accept (start_agent l) (ctx (tr w1))
                              (UsernameFragment params) (Password params))
                      (agent_Accept (start_agent l) (ctx (tr w1))
                                    (UsernameFragment params) (Password params)) w1).
  { unfold Start_connect. unfold bind at 1, get at 1. rewrite Hl. reflexivity. }
  repeat split; try assumption.
  unfold Start. unfold bind at 1. rewrite Hsetup.
  unfold bind at 1. rewrite Hc. reflexivity.
Qed.



(** *** Stop *)

Lemma stop_locked_eq w :
  stop_locked w
  = Returns (mux (tr w), gatherer (tr w))
      {| tr := set_state (Some ICETransportStateClosed) (tr w);
         env := match ctxCancel (tr w) with
                | Some c => snd (context_cancel c (env w))
                | None => env w
                end;
         calls := calls w ++ match ctxCancel (tr w) with
                             | Some c => [Cancel c]
                             | None => []
                             end |}.
Proof.
  unfold stop_locked, setState. unfold_monad. simpl.
  destruct (ctxCancel (tr w)) as [c |]; simpl.
  - destruct (context_cancel c (env w)) as [[] env']. reflexivity.
  - rewrite app_nil_r. reflexivity.
Qed.

(** What an immediate [Stop] returns, by the fields it finds. *)
Lemma Stop_eq w :
  Stop w
  = let w1 := final (stop_locked w) in
    match mux (tr w) with
    | Some m =>
        let r := mux_Close m (env w1) in
        Returns (FlattenErrs [fst r])
          {| tr := tr w1; env := snd r; calls := calls w1 ++ [MuxClose m] |}
    | None =>
        match gatherer (tr w) with
        | Some g =>
            let r := gatherer_Close g (env w1) in
            Returns (fst r)
              {| tr := tr w1; env := snd r; calls := calls w1 ++ [GathererClose g] |}
        | None => Returns None w1
        end
    end.
Proof.
  unfold Stop, stop. unfold bind at 1. rewrite stop_locked_eq. simpl.
  unfold stop_close. unfold_monad. simpl.
  destruct (mux (tr w)) as [m |]; [| destruct (gatherer (tr w)) as [g |]]; simpl.
  - destruct (mux_Close m _) as [e env']. reflexivity.
  - destruct (gatherer_Close g _) as [e env']. reflexivity.
  - reflexivity.
Qed.


(** A transport with a multiplexer has a gatherer: the multiplexer is only
    built by [Start], past the gatherer checks, and the gatherer field is
    never reset to nil. *)
Lemma run_mux_gatherer o w :
  (mux (tr w) <> None -> gatherer (tr w) <> None) ->
  mux (tr (run o w)) <> None -> gatherer (tr (run o w)) <> None.
Proof.
  destruct o; simpl; crunch; simpl in *; intros;
    try congruence; auto;
    first [ exfalso; match goal with H : _ -> None <> None |- _ => apply H; auto end
          | match goal with H : _ -> gatherer _ <> None |- _ => apply H; discriminate end ].
Qed.

Lemma reachable_mux_gatherer w :
  reachable w -> mux (tr w) <> None -> gatherer (tr w) <> None.
Proof.
  induction 1 as [g e | o w Hw IH].
  - simpl. congruence.
  - apply run_mux_gatherer. exact IH.
Qed.

Lemma FlattenErrs_keeps (errs : list (option error)) (e : error) :
  In (Some e) errs ->
  exists es, FlattenErrs errs = Some (multiError es) /\ In e es.
Proof.
  intros Hin. unfold FlattenErrs.
  set (f := fun o : option error => match o with Some x => [x] | None => [] end).
  assert (He : In e (flat_map f errs)).
  { apply in_flat_map. exists (Some e). split; [assumption | simpl; auto]. }
  destruct (flat_map f errs) as [| x xs] eqn:E.
  - contradiction.
  - exists (x :: xs). split; [reflexivity | assumption].
Qed.

(** C5. On a transport that has a multiplexer (and every such transport
    has a gatherer), [GracefulStop] calls the gatherer's GracefulClose and
    then the multiplexer's Close, in this order and after the cancel; it
    returns [FlattenErrs] of the two answers, in which every error either
    close gave is present. *)
Theorem GracefulStop_order (w : World) (m : MuxRef) :
  reachable w ->
  mux (tr w) = Some m ->
  exists g,
    gatherer (tr w) = Some g /\
    let r1 := gatherer_GracefulClose g (env (final (stop_locked w))) in
    let r2 := mux_Close m (snd r1) in
    GracefulStop w
    = Returns (FlattenErrs [fst r1; fst r2])
        {| tr := set_state (Some ICETransportStateClosed) (tr w);
           env := snd r2;
           calls := calls w
                    ++ match ctxCancel (tr w) with
                       | Some c => [Cancel c]
                       | None => []
                       end
                    ++ [GathererGracefulClose g; MuxClose m] |} /\
    (forall e, fst r1 = Some e \/ fst r2 = Some e ->
       exists es, FlattenErrs [fst r1; fst r2] = Some (multiError es) /\ In e es).
Proof.
  intros Hreach Hmux.
  destruct (gatherer (tr w)) as [g |] eqn:Hg.
  2:{ exfalso. apply (reachable_mux_gatherer Hreach); congruence. }
  exists g. split; [reflexivity |]. cbv zeta.
  split.
  - unfold GracefulStop, stop. unfold bind at 1. rewrite stop_locked_eq.
    rewrite Hmux, Hg. unfold stop_close. unfold_monad. simpl.
    destruct (gatherer_GracefulClose g _) as [e1 env1]. simpl.
    destruct (mux_Close m env1) as [e2 env2]. simpl.
    rewrite <- !app_assoc. reflexivity.
  - intros e He. apply FlattenErrs_keeps.
    destruct He as [-> | ->]; simpl; auto.
Qed.
Lemma Stop_returns w :
  exists err w',
    Stop w = Returns err w' /\
    mux (tr w') = mux (tr w) /\ gatherer (tr w') = gatherer (tr w) /\
    (closes_succeed C -> err = None).
Proof.
  rewrite Stop_eq. rewrite stop_locked_eq. simpl.
  destruct (mux (tr w)) as [m |] eqn:Em;
    [| destruct (gatherer (tr w)) as [g |] eqn:Eg];
    do 2 eexists; (split; [reflexivity |]); simpl;
    (split; [congruence |]); (split; [congruence |]);
    intros [Hg Hm]; try reflexivity.
  - rewrite Hm. reflexivity.
  - apply Hg.
Qed.

Lemma Stop_result w :
  exists env',
    Stop w
    = Returns (Stop_close_error (tr w) (Stop_cancelled (tr w) (env w)))
        {| tr := set_state (Some ICETransportStateClosed) (tr w);
           env := env';
           calls := calls w ++ Stop_cancel_call (tr w) ++ Stop_close_call (tr w) |}.
Proof.
  rewrite Stop_eq, stop_locked_eq. simpl.
  unfold Stop_close_error, Stop_close_call, Stop_cancel_call, Stop_cancelled.
  destruct (mux (tr w)) as [m |]; [| destruct (gatherer (tr w)) as [g |]];
    rewrite <- ?app_assoc, ?app_nil_r; eauto.
Qed.

(** C6 (amended). [Stop] returns on every transport, also when it is
    called a second time: it never panics, whether or not the fields are
    nil.  Each of the two calls cancels if there is a cancel function and
    then makes the same one close, of the multiplexer if there is one,
    else of the gatherer if there is one, and returns the error of that
    close: [FlattenErrs] of the answer of the multiplexer's Close, else the
    answer of the gatherer's Close, else nil.  [Stop] does not clear the
    multiplexer and gatherer fields, so the second call finds what the
    first one found.  Both calls return no error when the closes of the
    collaborators succeed. *)
Theorem Stop_twice_returns (w : World) :
  exists w1 w2,
    Stop w = Returns (Stop_close_error (tr w) (Stop_cancelled (tr w) (env w))) w1 /\
    calls w1 = calls w ++ Stop_cancel_call (tr w) ++ Stop_close_call (tr w) /\
    Stop w1 = Returns (Stop_close_error (tr w) (Stop_cancelled (tr w) (env w1))) w2 /\
    calls w2 = calls w1 ++ Stop_cancel_call (tr w) ++ Stop_close_call (tr w) /\
    mux (tr w1) = mux (tr w) /\
    gatherer (tr w1) = gatherer (tr w) /\
    (closes_succeed C ->
     Stop w = Returns None w1 /\ Stop w1 = Returns None w2).
Proof.
  destruct (Stop_result w) as (env1 & H1).
  remember {| tr := set_state (Some ICETransportStateClosed) (tr w);
              env := env1;
              calls := calls w ++ Stop_cancel_call (tr w) ++ Stop_close_call (tr w) |}
    as w1 eqn:Ew1.
  destruct (Stop_result w1) as (env2 & H2).
  assert (Ht : Stop_close_error (tr w1) = Stop_close_error (tr w) /\
               Stop_cancelled (tr w1) = Stop_cancelled (tr w) /\
               Stop_cancel_call (tr w1) = Stop_cancel_call (tr w) /\
               Stop_close_call (tr w1) = Stop_close_call (tr w)).
  { subst w1. repeat split. }
  destruct Ht as (Ht1 & Ht2 & Ht3 & Ht4).
  rewrite Ht1, Ht2, Ht3, Ht4 in H2.
  eexists w1, _. split; [exact H1 |].
  split; [subst w1; reflexivity |].
  split; [exact H2 |].
  split; [reflexivity |].
  split; [subst w1; reflexivity |].
  split; [subst w1; reflexivity |].
  intros [Hg Hm].
  assert (Hnone : forall e, Stop_close_error (tr w) e = None).
  { intros e. unfold Stop_close_error.
    destruct (mux (tr w)) as [m |]; [rewrite Hm; reflexivity |].
    destruct (gatherer (tr w)) as [g |]; [apply Hg | reflexivity]. }
  rewrite H1, H2, !Hnone. split; reflexivity.
Qed.

(** *** SetRemoteCandidates *)

Lemma add_call_converted agent c i e :
  toICE c = (i, e) -> add_call agent c = AgentAddRemoteCandidate agent (Some i).
Proof. intros H. unfold add_call. rewrite H. reflexivity. Qed.

Lemma SetRemoteCandidates_loop_spec agent cs w :
  (exists w',
     SetRemoteCandidates_loop agent cs w = Returns None w' /\
     tr w' = tr w /\
     added agent cs (env w) (env w') /\
     calls w' = calls w ++ map (add_call agent) cs)
  \/
  (exists pre c suf err w',
     cs = pre ++ c :: suf /\
     SetRemoteCandidates_loop agent cs w = Returns (Some err) w' /\
     tr w' = tr w /\
     exists e1,
       added agent pre (env w) e1 /\
       ((snd (toICE c) = Some err /\
         env w' = e1 /\
         calls w' = calls w ++ map (add_call agent) pre)
        \/
        (snd (toICE c) = None /\
         agent_AddRemoteCandidate agent (Some (fst (toICE c))) e1 = (Some err, env w') /\
         calls w' = calls w ++ map (add_call agent) pre ++ [add_call agent c]))).
Proof.
  revert w. induction cs as [| c rest IH]; intros w.
  - left. exists w. simpl. rewrite app_nil_r.
    repeat split; constructor.
  - simpl. destruct (toICE c) as [i [e |]] eqn:Hc.
    + right. exists [], c, rest, e, w. simpl.
      repeat split. exists (env w). split; [constructor |].
      left. rewrite Hc, app_nil_r. auto.
    + unfold bind, call.
      destruct (agent_AddRemoteCandidate agent (Some i) (env w)) as [[e |] env1] eqn:Ha.
      * right. exists [], c, rest, e. eexists. simpl.
        split; [reflexivity |]. split; [reflexivity |]. split; [reflexivity |].
        exists (env w). split; [constructor |].
        right. rewrite (add_call_converted agent c Hc), Hc. simpl. auto.
      * match goal with
        | |- context [SetRemoteCandidates_loop agent rest ?w1] =>
            destruct (IH w1) as [(w' & Hr & Ht & Hadd & Hcalls)
                                | (pre & c' & suf & err & w' & Hcs & Hr & Ht & e1 & Hadd & Hcase)]
        end; simpl in *.
        -- left. exists w'. rewrite Hr.
           split; [reflexivity |]. split; [assumption |].
           split; [econstructor; eassumption |].
           rewrite Hcalls, <- app_assoc, (add_call_converted agent c Hc). reflexivity.
        -- right. exists (c :: pre), c', suf, err, w'. rewrite Hr.
           split; [simpl; congruence |]. split; [reflexivity |].
           split; [assumption |].
           exists e1. split; [econstructor; eassumption |].
           destruct Hcase as [(H1 & H2 & H3) | (H1 & H2 & H3)]; [left | right];
             (repeat split; try assumption);
             rewrite H3, <- app_assoc; simpl;
             rewrite (add_call_converted agent c Hc); reflexivity.
Qed.

(** C7. Past its gatherer and agent checks, [SetRemoteCandidates] applies
    the candidates to the agent in list order.  Either all of them convert
    and are accepted, and it returns nil; or the list splits at a first
    failing candidate [c]: all candidates before it were converted and
    accepted by the agent, [c] failed to convert (nothing was sent for it)
    or was refused by the agent, that error is what is returned, nothing
    was called for the candidates after [c], and nothing undoes the
    additions already made: the agent is left in the state they produced. *)
Theorem SetRemoteCandidates_fail_fast
    (remoteCandidates : list ICECandidate) (w w0 : World) (agent : AgentRef) :
  ensureGatherer w = Returns None w0 ->
  getAgent w0 = Returns (Some agent) w0 ->
  (exists w',
     SetRemoteCandidates remoteCandidates w = Returns None w' /\
     tr w' = tr w0 /\
     added agent remoteCandidates (env w0) (env w') /\
     calls w' = calls w0 ++ map (add_call agent) remoteCandidates)
  \/
  (exists pre c suf err w',
     remoteCandidates = pre ++ c :: suf /\
     SetRemoteCandidates remoteCandidates w = Returns (Some err) w' /\
     tr w' = tr w0 /\
     exists e1,
       added agent pre (env w0) e1 /\
       ((snd (toICE c) = Some err /\
         env w' = e1 /\
         calls w' = calls w0 ++ map (add_call agent) pre)
        \/
        (snd (toICE c) = None /\
         agent_AddRemoteCandidate agent (Some (fst (toICE c))) e1 = (Some err, env w') /\
         calls w' = calls w0 ++ map (add_call agent) pre ++ [add_call agent c]))).
Proof.
  intros Hensure Hagent.
  assert (Heq : SetRemoteCandidates remoteCandidates w
                = SetRemoteCandidates_loop agent remoteCandidates w0).
  { unfold SetRemoteCandidates. unfold bind at 1. rewrite Hensure.
    unfold bind at 1. rewrite Hagent. reflexivity. }
  rewrite Heq. apply SetRemoteCandidates_loop_spec.
Qed.

(** C8 (amended). [setRemoteCredentials] does not run [ensureGatherer] and
    never creates an agent.  On a transport with a gatherer: if the
    gatherer has no agent, it returns errICEAgentNotExist (wrapped) and
    leaves everything as it was, no agent created; if it has one, it
    forwards the credentials to the agent's SetRemoteCredentials and
    returns its answer. *)
Theorem setRemoteCredentials_needs_agent
    (newUfrag newPwd : string) (w : World) (g : GathererRef) :
  gatherer (tr w) = Some g ->
  (gatherer_getAgent g (env w) = None ->
     exists err,
       setRemoteCredentials newUfrag newPwd w = Returns (Some err) w /\
       errors_Is err errICEAgentNotExist = true) /\
  (forall agent,
     gatherer_getAgent g (env w) = Some agent ->
     setRemoteCredentials newUfrag newPwd w
     = call (AgentSetRemoteCredentials agent newUfrag newPwd)
            (agent_SetRemoteCredentials agent newUfrag newPwd) w).
Proof.
  intros Hg. unfold setRemoteCredentials, getAgent. unfold bind, get, peek.
  rewrite Hg. split.
  - intros ->. eexists. split; reflexivity.
  - intros agent ->. reflexivity.
Qed.
(** ** Further properties of the methods *)

Lemma final_bind {A B} (m : M A) (k : A -> M B) w :
  final (bind m k w)
  = match m w with
    | Returns a w' => final (k a w')
    | Panics w' => w'
    end.
Proof. unfold bind. destruct (m w); reflexivity. Qed.

(** X1. Without a gatherer, neither bound nor passed, the methods that go
    through [ensureGatherer] refuse with errICEGathererNotStarted and
    leave the transport, the collaborators and the call log as they were:
    [Start] (on a New transport), [SetRemoteCandidates] with any list,
    the empty one included, [AddRemoteCandidate] and
    [GetLocalParameters]. *)
Theorem no_gatherer_refused (w : World) :
  gatherer (tr w) = None ->
  (current_state (tr w) = ICETransportStateNew ->
   forall params roleArg,
     Start None params roleArg w
     = Returns (Some (Err errICEGathererNotStarted)) w) /\
  (forall remoteCandidates,
     SetRemoteCandidates remoteCandidates w
     = Returns (Some (Err errICEGathererNotStarted)) w) /\
  (forall remoteCandidate,
     AddRemoteCandidate remoteCandidate w
     = Returns (Some (Err errICEGathererNotStarted)) w) /\
  GetLocalParameters w = Returns (None, Some (Err errICEGathererNotStarted)) w.
Proof.
  intros Hg.
  assert (He : ensureGatherer w = Returns (Some (Err errICEGathererNotStarted)) w).
  { unfold ensureGatherer. unfold_monad. rewrite Hg. reflexivity. }
  split; [| split; [| split]].
  - intros Hs params roleArg. unfold Start, Start_setup.
    unfold bind at 1 2. rewrite State_current, Hs. simpl.
    unfold bind at 1 2. simpl. rewrite He. reflexivity.
  - intros cs. unfold SetRemoteCandidates. unfold bind at 1. rewrite He. reflexivity.
  - intros c. unfold AddRemoteCandidate. unfold bind at 1. rewrite He. reflexivity.
  - unfold GetLocalParameters. unfold bind at 1. rewrite He. reflexivity.
Qed.

(** *** What [Start] writes *)

(** The first section of [Start] cannot panic: the agent is asked of the
    gatherer only after [ensureGatherer] found one. *)
Lemma Start_setup_returns gathererArg roleArg w :
  exists x w1, Start_setup gathererArg roleArg w = Returns x w1.
Proof.
  unfold Start_setup, ensureGatherer, getAgent, State. unfold_monad.
  destruct gathererArg; simpl; repeat (branch; simpl; try congruence); eauto.
Qed.

(** When the first section lets [Start] go on, a gatherer is bound and the
    context just created is stored together with its cancel function. *)
Lemma Start_setup_context gathererArg roleArg w l w1 :
  Start_setup gathererArg roleArg w = Returns (inr l) w1 ->
  (exists g, gatherer (tr w1) = Some g) /\
  (exists c, ctx (tr w1) = Some c /\ ctxCancel (tr w1) = Some c /\
             exists cs, calls w1 = calls w ++ cs ++ [WithCancel]).
Proof.
  unfold Start_setup, ensureGatherer, getAgent, State. unfold_monad.
  destruct gathererArg; simpl;
    repeat (branch; simpl; try discriminate);
    intros H; inversion H; subst; clear H; simpl;
    (split; [eauto |]); eexists; (split; [reflexivity |]);
    (split; [reflexivity |]);
    rewrite <- ?app_assoc; simpl.
  all: first [ exists [CreateAgent g; AgentOnConnectionStateChange a;
                       AgentOnSelectedCandidatePairChange a]; reflexivity
             | match goal with
               | |- context [CreateAgent ?g :: AgentOnConnectionStateChange ?a :: _] =>
                   exists [CreateAgent g; AgentOnConnectionStateChange a;
                           AgentOnSelectedCandidatePairChange a]; reflexivity
               | |- context [AgentOnConnectionStateChange ?a :: _] =>
                   exists [AgentOnConnectionStateChange a;
                           AgentOnSelectedCandidatePairChange a]; reflexivity
               end ].
Qed.

Lemma Start_connect_tr params l w :
  exists r w', Start_connect params l w = Returns r w' /\ tr w' = tr w.
Proof.
  unfold Start_connect. unfold_monad.
  repeat (branch; simpl); eauto.
Qed.

(** X2. A [Start] whose checks pass and whose dial or accept answers
    without error (and without another operation in between) returns nil
    having stored what the agent gave as the connection, and as the
    multiplexer the one NewMux built from that connection and the
    gatherer's receive MTU; building it is the last call of [Start]. *)
Theorem Start_publishes
    (gathererArg : option GathererRef) (params : ICEParameters)
    (roleArg : option ICERole) (w w1 w2 : World) (l : StartLocals)
    (iceConn : option ConnRef) :
  Start_setup gathererArg roleArg w = Returns (inr l) w1 ->
  Start_connect params l w1 = Returns (iceConn, None) w2 ->
  exists g,
    gatherer (tr w2) = Some g /\
    let mtu := gatherer_getReceiveMTU g (env w2) in
    let r := mux_NewMux iceConn mtu (env w2) in
    Start gathererArg params roleArg w
    = Returns None
        {| tr := set_mux (Some (fst r)) (set_conn iceConn (tr w2));
           env := snd r;
           calls := calls w2 ++ [NewMux iceConn mtu] |}.
Proof.
  intros Hsetup Hconnect.
  destruct (Start_setup_passed _ _ _ Hsetup) as (Hnew & _ & _ & Hstate & _).
  destruct (Start_setup_context _ _ _ Hsetup) as ((g & Hg) & _).
  destruct (Start_connect_tr params l w1) as (r' & w2' & Hc & Htr).
  rewrite Hconnect in Hc. inversion Hc; subst r' w2'; clear Hc.
  exists g. split; [congruence |]. cbv zeta.
  unfold Start. unfold bind at 1. rewrite Hsetup.
  unfold bind at 1. rewrite Hconnect.
  unfold Start_finish. unfold bind at 1. rewrite State_current.
  assert (Hs2 : current_state (tr w2) = ICETransportStateNew).
  { unfold current_state in *. rewrite Htr, Hstate. exact Hnew. }
  rewrite Hs2. simpl. unfold_monad. simpl. rewrite Htr, Hg. simpl.
  destruct (mux_NewMux iceConn (gatherer_getReceiveMTU g (env w2)) (env w2)).
  reflexivity.
Qed.

(** X3. [Start] always returns: none of its paths dereferences a nil
    pointer, whatever the transport, the arguments (nil gatherer, nil
    role) and the answers of the collaborators. *)
Theorem Start_returns
    (gathererArg : option GathererRef) (params : ICEParameters)
    (roleArg : option ICERole) (w : World) :
  exists err w', Start gathererArg params roleArg w = Returns err w'.
Proof.
  unfold Start. unfold bind at 1.
  destruct (Start_setup_returns gathererArg roleArg w) as ([err | l] & w1 & Hsetup);
    rewrite Hsetup; [unfold ret; eauto |].
  destruct (Start_setup_context _ _ _ Hsetup) as ((g & Hg) & _).
  destruct (Start_connect_tr params l w1) as ([iceConn [e |]] & w2 & Hc & Htr);
    unfold bind at 1; rewrite Hc; simpl; [unfold ret; eauto |].
  unfold bind at 1. rewrite State_current.
  destruct (ICETransportState_eqb (current_state (tr w2)) ICETransportStateClosed);
    [unfold ret; eauto |].
  unfold_monad. simpl. rewrite Htr, Hg. simpl.
  destruct (mux_NewMux iceConn (gatherer_getReceiveMTU g (env w2)) (env w2)).
  eauto.
Qed.

(** The state is written by the locked part of [stop] and by the agent's
    notification only. *)
Lemma run_state o w :
  writes_state o = false -> state (tr (run o w)) = state (tr w).
Proof.
  destruct o; simpl; try discriminate; intros _; crunch; congruence.
Qed.

(** X4. [Start] never writes the state.  After a [Start] that returned
    nil the state is therefore still New: it moves on only when the agent
    notifies a change, and until then a further [Start] passes the state
    check again. *)
Theorem Start_keeps_state
    (gathererArg : option GathererRef) (params : ICEParameters)
    (roleArg : option ICERole) (w w' : World) (err : option error) :
  Start gathererArg params roleArg w = Returns err w' ->
  state (tr w') = state (tr w) /\
  (err = None -> current_state (tr w') = ICETransportStateNew).
Proof.
  intros H.
  assert (Hst : state (tr w') = state (tr w)).
  { pose proof (run_state (OpStartSetup gathererArg roleArg) w eq_refl) as H1.
    simpl in H1. unfold Start in H. unfold bind at 1 in H.
    destruct (Start_setup gathererArg roleArg w) as [[e | l] w1 | w1];
      simpl in H1; [inversion H; subst; exact H1 | | discriminate H].
    pose proof (run_state (OpStartConnect params l) w1 eq_refl) as H2.
    simpl in H2. unfold bind at 1 in H.
    destruct (Start_connect params l w1) as [r w2 | w2];
      simpl in H2; [| discriminate H].
    pose proof (run_state (OpStartFinish r) w2 eq_refl) as H3.
    simpl in H3. rewrite H in H3. simpl in H3. congruence. }
  split; [exact Hst |].
  intros ->. unfold current_state. rewrite Hst.
  unfold Start, Start_setup in H. unfold bind at 1 2 in H.
  rewrite State_current in H.
  destruct (ICETransportState_eqb (current_state (tr w)) ICETransportStateNew) eqn:E.
  - apply ICETransportState_eqb_eq in E. exact E.
  - simpl in H. discriminate H.
Qed.

(** X5. A [Start] refused by its checks returns the error of the failing
    check and has written nothing but, possibly, the gatherer: role, state,
    connection, multiplexer, context and cancel function are as before, no
    context was created and nothing was dialled or accepted.  On a New
    transport a gatherer passed as argument has replaced the bound one
    already, though [Start] failed. *)
Theorem Start_refused_frame
    (gathererArg : option GathererRef) (params : ICEParameters)
    (roleArg : option ICERole) (w w1 : World) (err : error) :
  Start_setup gathererArg roleArg w = Returns (inl err) w1 ->
  Start gathererArg params roleArg w = Returns (Some err) w1 /\
  role (tr w1) = role (tr w) /\
  state (tr w1) = state (tr w) /\
  conn (tr w1) = conn (tr w) /\
  mux (tr w1) = mux (tr w) /\
  ctx (tr w1) = ctx (tr w) /\
  ctxCancel (tr w1) = ctxCancel (tr w) /\
  (current_state (tr w) = ICETransportStateNew ->
   forall g, gathererArg = Some g -> gatherer (tr w1) = Some g) /\
  exists cs, calls w1 = calls w ++ cs /\
             forallb (fun c => negb (is_connect_or_context c)) cs = true.
Proof.
  intros Hsetup. split.
  { unfold Start. unfold bind at 1. rewrite Hsetup. reflexivity. }
  revert Hsetup.
  unfold Start_setup, ensureGatherer, getAgent, State, current_state.
  unfold_monad.
  destruct gathererArg; simpl;
    repeat (branch; simpl; try discriminate);
    intros H; inversion H; subst; clear H; simpl;
    do 6 (split; [first [reflexivity | congruence] |]);
    (split; [intros Hn g' Hg'; simpl in *;
             first [congruence | subst; simpl in *; discriminate] |]);
    rewrite <- ?app_assoc; simpl;
    first [ exists []; rewrite app_nil_r; split; reflexivity
          | eexists; split; reflexivity ].
Qed.

(** *** The gatherer and the context across operations *)

Lemma run_gatherer o w :
  (is_StartSetup o = false -> gatherer (tr (run o w)) = gatherer (tr w)) /\
  (gatherer (tr w) <> None -> gatherer (tr (run o w)) <> None).
Proof.
  destruct o; simpl; crunch; split; intros; simpl in *; congruence.
Qed.

Lemma run_ctxCancel o w :
  is_StartSetup o = false -> ctxCancel (tr (run o w)) = ctxCancel (tr w).
Proof.
  destruct o; simpl; try discriminate; intros _; crunch; congruence.
Qed.

(** X6. Once a gatherer is bound to the transport it stays bound: no
    operation resets the field to nil, in any schedule, and only the first
    section of a [Start] can replace it. *)
Theorem gatherer_stays_bound (w : World) (g : GathererRef) :
  gatherer (tr w) = Some g ->
  (forall os, exists g', gatherer (tr (runs os w)) = Some g') /\
  (forall os,
     forallb (fun o => negb (is_StartSetup o)) os = true ->
     gatherer (tr (runs os w)) = Some g).
Proof.
  intros Hg. split.
  - intros os. revert w g Hg.
    induction os as [| o os IH]; intros w g Hg; simpl.
    + eauto.
    + destruct (gatherer (tr (run o w))) as [g1 |] eqn:E.
      * exact (IH (run o w) g1 E).
      * exfalso. apply (proj2 (run_gatherer o w)); congruence.
  - intros os. revert w Hg.
    induction os as [| o os IH]; intros w Hg H; simpl in *.
    + exact Hg.
    + apply andb_prop in H as [Ho Hos]. apply IH; [| exact Hos].
      rewrite (proj1 (run_gatherer o w)); [exact Hg |].
      destruct (is_StartSetup o); [discriminate | reflexivity].
Qed.

Lemma runs_ctxCancel os w :
  forallb (fun o => negb (is_StartSetup o)) os = true ->
  ctxCancel (tr (runs os w)) = ctxCancel (tr w).
Proof.
  revert w. induction os as [| o os IH]; intros w H; simpl in *.
  - reflexivity.
  - apply andb_prop in H as [Ho Hos]. unfold runs in *.
    rewrite IH by assumption. apply run_ctxCancel.
    destruct (is_StartSetup o); [discriminate | reflexivity].
Qed.

(** [stop] in either mode: it returns, the state is Closed and nothing
    else of the transport is written, and the cancel comes before any
    close. *)
Lemma stop_returns shouldGracefullyClose w :
  exists err w' closes,
    stop shouldGracefullyClose w = Returns err w' /\
    tr w' = set_state (Some ICETransportStateClosed) (tr w) /\
    calls w' = calls w
               ++ match ctxCancel (tr w) with
                  | Some c => [Cancel c]
                  | None => []
                  end
               ++ closes /\
    forallb (fun c => match c with
                      | GathererClose _ | GathererGracefulClose _ | MuxClose _ => true
                      | _ => false
                      end) closes = true.
Proof.
  unfold stop. unfold bind at 1. rewrite stop_locked_eq.
  unfold stop_close. unfold_monad. simpl.
  destruct (mux (tr w)) as [m |], (gatherer (tr w)) as [g |],
    shouldGracefullyClose; simpl;
    repeat (branch; simpl);
    do 3 eexists; (split; [reflexivity |]); (split; [reflexivity |]);
    rewrite <- ?app_assoc; simpl;
    first [ split; [reflexivity | reflexivity]
          | split; [rewrite app_nil_r | ]; [exact (eq_sym (app_nil_r _)) | ] ].
  all: try reflexivity.
Qed.

(** X7. The context [Start] creates is stored with its cancel function,
    it is the context the dial or accept runs under, and it is the one a
    later [Stop] or [GracefulStop] cancels, before any close: whatever
    runs in between, short of the first section of another [Start]. *)
Theorem stop_cancels_context_of_Start
    (gathererArg : option GathererRef) (roleArg : option ICERole)
    (w w1 : World) (l : StartLocals) :
  Start_setup gathererArg roleArg w = Returns (inr l) w1 ->
  exists c,
    ctx (tr w1) = Some c /\
    ctxCancel (tr w1) = Some c /\
    (forall params,
       exists r w2,
         Start_connect params l w1 = Returns r w2 /\
         (start_role l = ICERoleControlling ->
          calls w2 = calls w1 ++ [Dial (start_agent l) (Some c)
                                       (UsernameFragment params) (Password params)]) /\
         (start_role l = ICERoleControlled ->
          calls w2 = calls w1 ++ [Accept (start_agent l) (Some c)
                                         (UsernameFragment params) (Password params)])) /\
    forall os shouldGracefullyClose,
      forallb (fun o => negb (is_StartSetup o)) os = true ->
      exists err w' closes,
        stop shouldGracefullyClose (runs os w1) = Returns err w' /\
        calls w' = calls (runs os w1) ++ Cancel c :: closes /\
        forallb (fun c => negb (is_connect_or_context c)) closes = true.
Proof.
  intros Hsetup.
  destruct (Start_setup_context _ _ _ Hsetup) as (_ & c & Hctx & Hcancel & _).
  exists c. split; [exact Hctx |]. split; [exact Hcancel |].
  split.
  { intros params. unfold Start_connect. unfold bind, get, call, ret.
    rewrite Hctx.
    destruct (start_role l =? ICERoleControlling) eqn:E1.
    - destruct (agent_Dial _ _ _ _ _) as [r env']. do 2 eexists.
      split; [reflexivity |]. split; [reflexivity |].
      intros E2. apply Z.eqb_eq in E1. rewrite E2 in E1. discriminate E1.
    - destruct (start_role l =? ICERoleControlled) eqn:E2.
      + destruct (agent_Accept _ _ _ _ _) as [r env']. do 2 eexists.
        split; [reflexivity |]. split; [| reflexivity].
        intros E3. rewrite E3 in E1. discriminate E1.
      + do 2 eexists. split; [reflexivity |].
        split; intros E3; rewrite E3 in *; discriminate. }
  intros os b Hos.
  destruct (stop_returns b (runs os w1)) as (err & w' & closes & Hstop & _ & Hcalls & Hcl).
  rewrite (runs_ctxCancel os w1 Hos), Hcancel in Hcalls.
  exists err, w', closes. split; [exact Hstop |]. split; [exact Hcalls |].
  clear - Hcl. induction closes as [| x xs IH]; simpl in *; [reflexivity |].
  apply andb_prop in Hcl as [Hx Hxs]. rewrite (IH Hxs).
  destruct x; simpl in *; try discriminate; reflexivity.
Qed.

(** X8. [Stop] and [GracefulStop] return on every transport, leave the
    state Closed and every other field as it was, and end the transport
    for [Start]: any [Start] after them is refused with
    errICETransportNotInNew and changes nothing, also after further
    operations, as long as no notification of the agent moves the state
    away from Closed. *)
Theorem stop_is_final (shouldGracefullyClose : bool) (w : World) :
  exists err w',
    stop shouldGracefullyClose w = Returns err w' /\
    tr w' = set_state (Some ICETransportStateClosed) (tr w) /\
    forall os,
      forallb keeps_closed os = true ->
      forall gathererArg params roleArg,
        Start gathererArg params roleArg (runs os w')
        = Returns (Some (Err errICETransportNotInNew)) (runs os w').
Proof.
  destruct (stop_returns shouldGracefullyClose w)
    as (err & w' & closes & Hstop & Htr & _).
  exists err, w'. split; [exact Hstop |]. split; [exact Htr |].
  intros os Hos gathererArg params roleArg.
  assert (Hc : current_state (tr w') = ICETransportStateClosed)
    by (rewrite Htr; reflexivity).
  destruct (runs_closed_conn_mux os w' Hc Hos) as (Hc' & _).
  unfold Start, Start_setup. unfold bind at 1 2.
  rewrite State_current, Hc'. reflexivity.
Qed.

(** X9. Without a multiplexer [GracefulStop] closes the gatherer through
    its GracefulClose, not its Close, and returns that error as it is;
    with no gatherer either it closes nothing and returns nil.  In both
    cases the cancel, if any, comes first. *)
Theorem GracefulStop_without_mux (w : World) :
  mux (tr w) = None ->
  let t' := set_state (Some ICETransportStateClosed) (tr w) in
  let env1 := match ctxCancel (tr w) with
              | Some c => snd (context_cancel c (env w))
              | None => env w
              end in
  let cancelled := match ctxCancel (tr w) with
                   | Some c => [Cancel c]
                   | None => []
                   end in
  GracefulStop w
  = match gatherer (tr w) with
    | Some g =>
        Returns (fst (gatherer_GracefulClose g env1))
          {| tr := t'; env := snd (gatherer_GracefulClose g env1);
             calls := calls w ++ cancelled ++ [GathererGracefulClose g] |}
    | None =>
        Returns None {| tr := t'; env := env1; calls := calls w ++ cancelled |}
    end.
Proof.
  intros Hm. cbv zeta.
  unfold GracefulStop, stop. unfold bind at 1. rewrite stop_locked_eq.
  rewrite Hm. unfold stop_close. unfold_monad. simpl.
  destruct (gatherer (tr w)) as [g |]; simpl.
  - destruct (gatherer_GracefulClose g _). simpl.
    rewrite <- app_assoc. reflexivity.
  - reflexivity.
Qed.

(** *** Candidates and credentials *)

Lemma SetRemoteCandidates_loop_app agent xs ys w :
  SetRemoteCandidates_loop agent (xs ++ ys) w
  = match SetRemoteCandidates_loop agent xs w with
    | Returns None w' => SetRemoteCandidates_loop agent ys w'
    | r => r
    end.
Proof.
  revert w. induction xs as [| c rest IH]; intros w; simpl.
  - reflexivity.
  - destruct (toICE c) as [i [e |]]; [reflexivity |].
    unfold bind, call.
    destruct (agent_AddRemoteCandidate agent (Some i) (env w)) as [[e |] env1].
    + reflexivity.
    + apply IH.
Qed.

(** X10. Past the gatherer and agent checks, applying a list of
    candidates in one [SetRemoteCandidates] is applying a first part of it
    and, if that returned nil, going on with the rest on the same agent: a
    failure in the first part is the result of the whole and the rest is
    not looked at. *)
Theorem SetRemoteCandidates_app
    (xs ys : list ICECandidate) (w w0 : World) (agent : AgentRef) :
  ensureGatherer w = Returns None w0 ->
  getAgent w0 = Returns (Some agent) w0 ->
  SetRemoteCandidates (xs ++ ys) w
  = match SetRemoteCandidates xs w with
    | Returns None w' => SetRemoteCandidates_loop agent ys w'
    | r => r
    end.
Proof.
  intros Hensure Hagent.
  unfold SetRemoteCandidates. unfold bind at 1 3. rewrite Hensure.
  unfold bind at 1 2. rewrite Hagent.
  apply SetRemoteCandidates_loop_app.
Qed.

(** X11. Past the gatherer and agent checks, [SetRemoteCandidates] on a
    one-candidate list and [AddRemoteCandidate] on that candidate are the
    same operation: same result, same call, same final world. *)
Theorem SetRemoteCandidates_single
    (c : ICECandidate) (w w0 : World) (agent : AgentRef) :
  ensureGatherer w = Returns None w0 ->
  getAgent w0 = Returns (Some agent) w0 ->
  SetRemoteCandidates [c] w = AddRemoteCandidate (Some c) w.
Proof.
  intros Hensure Hagent.
  unfold SetRemoteCandidates, AddRemoteCandidate.
  unfold bind at 1 3. rewrite Hensure.
  unfold bind at 1. rewrite Hagent. simpl.
  destruct (toICE c) as [i [e |]]; [reflexivity |].
  unfold bind at 2. rewrite Hagent.
  unfold bind, call, ret.
  destruct (agent_AddRemoteCandidate agent (Some i) (env w0)) as [[e |] env1];
    reflexivity.
Qed.

(** X12. [AddRemoteCandidate] with a nil candidate, past the gatherer and
    agent checks, hands the nil candidate to the agent (the end of
    candidates) and returns the agent's answer, whether or not anything was
    added before.  A candidate that does not convert is refused with the
    conversion error before the agent is looked up: the agent is not
    called, and it need not exist. *)
Theorem AddRemoteCandidate_edges (w w0 : World) :
  ensureGatherer w = Returns None w0 ->
  (forall agent,
     getAgent w0 = Returns (Some agent) w0 ->
     AddRemoteCandidate None w
     = call (AgentAddRemoteCandidate agent None)
            (agent_AddRemoteCandidate agent None) w0) /\
  (forall c e,
     snd (toICE c) = Some e ->
     AddRemoteCandidate (Some c) w = Returns (Some e) w0).
Proof.
  intros Hensure. split.
  - intros agent Hagent. unfold AddRemoteCandidate.
    unfold bind at 1. rewrite Hensure. unfold bind at 1. rewrite Hagent.
    reflexivity.
  - intros c e Hc. unfold AddRemoteCandidate.
    unfold bind at 1. rewrite Hensure.
    destruct (toICE c) as [i err]. simpl in Hc. subst err. reflexivity.
Qed.

(** X13. [haveRemoteCredentialsChange] on a transport with a gatherer
    never writes the transport.  It answers false when the gatherer has no
    agent and when the agent cannot tell its remote credentials; otherwise
    it answers true exactly when the username fragment or the password
    differs from the one the agent holds. *)
Theorem haveRemoteCredentialsChange_spec
    (newUfrag newPwd : string) (w : World) (g : GathererRef) :
  gatherer (tr w) = Some g ->
  (gatherer_getAgent g (env w) = None ->
     haveRemoteCredentialsChange newUfrag newPwd w = Returns false w) /\
  (forall agent uFrag uPwd err env',
     gatherer_getAgent g (env w) = Some agent ->
     agent_GetRemoteUserCredentials agent (env w) = (uFrag, uPwd, err, env') ->
     exists changed,
       haveRemoteCredentialsChange newUfrag newPwd w
       = Returns changed
           {| tr := tr w; env := env';
              calls := calls w ++ [AgentGetRemoteUserCredentials agent] |} /\
       (changed = true <->
        err = None /\ (uFrag <> newUfrag \/ uPwd <> newPwd))).
Proof.
  intros Hg. unfold haveRemoteCredentialsChange, getAgent.
  unfold bind, get, peek, call, ret. rewrite Hg. split.
  - intros ->. reflexivity.
  - intros agent uFrag uPwd err env' -> ->.
    destruct err as [e |].
    + exists false. split; [reflexivity |].
      split; [discriminate | intros [H _]; discriminate H].
    + eexists. split; [reflexivity |].
      rewrite orb_true_iff, !negb_true_iff.
      destruct (String.eqb_spec uFrag newUfrag), (String.eqb_spec uPwd newPwd);
        split; intros H; try (split; [reflexivity |]); try tauto;
        try (destruct H as [H | H]; discriminate H);
        try (destruct H as [_ [H | H]]; contradiction).
Qed.

(** X14. [restart] on a transport with a gatherer: without an agent it
    returns errICEAgentNotExist (wrapped) and calls nothing; with one it
    restarts the agent first and gathers only if that succeeded, returning
    the error of the restart, or else whatever Gather returns. *)
Theorem restart_order (w : World) (g : GathererRef) :
  gatherer (tr w) = Some g ->
  (gatherer_getAgent g (env w) = None ->
     exists err,
       restart w = Returns (Some err) w /\
       errors_Is err errICEAgentNotExist = true) /\
  (forall agent,
     gatherer_getAgent g (env w) = Some agent ->
     let r1 := agent_Restart agent (env w) in
     let r2 := gatherer_Gather g (snd r1) in
     restart w
     = match fst r1 with
       | Some err =>
           Returns (Some err)
             {| tr := tr w; env := snd r1;
                calls := calls w ++ [AgentRestart agent] |}
       | None =>
           Returns (fst r2)
             {| tr := tr w; env := snd r2;
                calls := calls w ++ [AgentRestart agent; Gather g] |}
       end).
Proof.
  intros Hg. unfold restart, getAgent. unfold bind, get, peek, call, ret.
  rewrite Hg. split.
  - intros ->. eexists. split; reflexivity.
  - intros agent ->. cbv zeta.
    destruct (agent_Restart agent (env w)) as [[e |] env1]; simpl; [reflexivity |].
    rewrite Hg. simpl. rewrite <- app_assoc. simpl.
    destruct (gatherer_Gather g env1) as [e2 env2]. reflexivity.
Qed.

(** *** Notifications of the agent and handlers *)

(** What a state notification leaves behind, whether it returns or
    panics on a nil handler: the state is stored first, then the handlers
    are called in order, up to the first nil one. *)
Lemma connectionStateCallback_final (iceState : ice_ConnectionState) (w : World) :
  tr (final (connectionStateCallback iceState w))
  = set_state (Some (newICETransportStateFromICE iceState)) (tr w) /\
  calls (final (connectionStateCallback iceState w))
  = calls w
    ++ match onConnectionStateChangeHandler (tr w) with
       | Some (Some h) => [StateHandler h (newICETransportStateFromICE iceState)]
       | _ => []
       end
    ++ match onConnectionStateChangeHandler (tr w),
             internalOnConnectionStateChangeHandler (tr w) with
       | Some None, _ => []
       | _, Some (Some h) => [StateHandler h (newICETransportStateFromICE iceState)]
       | _, _ => []
       end.
Proof.
  unfold connectionStateCallback, onConnectionStateChange, setState.
  unfold_monad. simpl.
  destruct (onConnectionStateChangeHandler (tr w)) as [[h |] |] eqn:Eh,
           (internalOnConnectionStateChangeHandler (tr w)) as [[hi |] |] eqn:Ei;
    simpl;
    repeat (first [ rewrite Ei
                  | match goal with
                    | |- context [handler_state ?h ?s ?e] =>
                        destruct (handler_state h s e) as [[] ?]
                    end ]; simpl);
    rewrite <- ?app_assoc, ?app_nil_r; simpl; split; reflexivity.
Qed.

Lemma connectionStateCallback_returns (iceState : ice_ConnectionState) (w : World) :
  (exists w', connectionStateCallback iceState w = Returns tt w') <->
  onConnectionStateChangeHandler (tr w) <> Some None /\
  internalOnConnectionStateChangeHandler (tr w) <> Some None.
Proof.
  unfold connectionStateCallback, onConnectionStateChange, setState.
  unfold_monad. simpl.
  destruct (onConnectionStateChangeHandler (tr w)) as [[h |] |] eqn:Eh,
           (internalOnConnectionStateChangeHandler (tr w)) as [[hi |] |] eqn:Ei;
    simpl;
    repeat (first [ rewrite Ei
                  | match goal with
                    | |- context [handler_state ?h ?s ?e] =>
                        destruct (handler_state h s e) as [[] ?]
                    end ]; simpl);
    split;
    try (intros _; split; discriminate);
    try (intros _; eexists; reflexivity);
    try (intros [w' Hw]; discriminate Hw);
    try (intros [H1 H2]; exfalso; first [apply H1; reflexivity | apply H2; reflexivity]).
Qed.

(** X15. A connection state notification stores the translated state
    whatever the state was, Closed included, and writes no other field.
    It then calls the application's handler and after it the internal
    one, each with that state and only if one was stored.  A stored nil
    handler makes the notification panic at that call, after the state was
    stored and the handlers before it were called; in every other case it
    returns. *)
Theorem connectionStateCallback_order (iceState : ice_ConnectionState) (w : World) :
  let s := newICETransportStateFromICE iceState in
  let w' := final (connectionStateCallback iceState w) in
  tr w' = set_state (Some s) (tr w) /\
  calls w'
  = calls w
    ++ match onConnectionStateChangeHandler (tr w) with
       | Some (Some h) => [StateHandler h s]
       | _ => []
       end
    ++ match onConnectionStateChangeHandler (tr w),
             internalOnConnectionStateChangeHandler (tr w) with
       | Some None, _ => []
       | _, Some (Some h) => [StateHandler h s]
       | _, _ => []
       end /\
  ((exists w'', connectionStateCallback iceState w = Returns tt w'') <->
   onConnectionStateChangeHandler (tr w) <> Some None /\
   internalOnConnectionStateChangeHandler (tr w) <> Some None).
Proof.
  cbv zeta.
  destruct (connectionStateCallback_final iceState w) as [Ht Hc].
  split; [exact Ht |]. split; [exact Hc |].
  apply connectionStateCallback_returns.
Qed.

(** X16. A notification that arrives after the locked part of a [Stop]
    takes the state away from Closed, and the last section of a [Start]
    that was waiting for its lock then publishes the connection it
    obtained: the state check of [Start] looks at the state as it is when
    the lock is retaken, not at whether a [Stop] has run. *)
Theorem notification_reopens_after_stop
    (w : World) (g : GathererRef) (iceState : ice_ConnectionState)
    (iceConn : option ConnRef) :
  gatherer (tr w) = Some g ->
  newICETransportStateFromICE iceState <> ICETransportStateClosed ->
  let w1 := run (OpStopLocked) w in
  let w2 := run (OpConnectionStateCallback iceState) w1 in
  current_state (tr w1) = ICETransportStateClosed /\
  current_state (tr w2) = newICETransportStateFromICE iceState /\
  exists m w3,
    Start_finish (iceConn, None) w2 = Returns None w3 /\
    conn (tr w3) = iceConn /\
    mux (tr w3) = Some m /\
    current_state (tr w3) = newICETransportStateFromICE iceState.
Proof.
  intros Hg Hs. cbv zeta.
  remember (run OpStopLocked w) as w1 eqn:Ew1.
  assert (H1 : tr w1 = set_state (Some ICETransportStateClosed) (tr w)).
  { subst w1. simpl. rewrite stop_locked_eq. reflexivity. }
  destruct (connectionStateCallback_final iceState w1) as (H2 & _).
  remember (run (OpConnectionStateCallback iceState) w1) as w2 eqn:Ew2.
  assert (Hw2 : tr w2 = set_state (Some (newICETransportStateFromICE iceState))
                          (set_state (Some ICETransportStateClosed) (tr w))).
  { subst w2. simpl. rewrite H2, H1. reflexivity. }
  split; [rewrite H1; reflexivity |].
  split; [rewrite Hw2; reflexivity |].
  unfold Start_finish. unfold bind at 1. rewrite State_current.
  replace (current_state (tr w2)) with (newICETransportStateFromICE iceState)
    by (rewrite Hw2; reflexivity).
  destruct (ICETransportState_eqb (newICETransportStateFromICE iceState)
              ICETransportStateClosed) eqn:E.
  { apply ICETransportState_eqb_eq in E. contradiction. }
  unfold_monad. simpl. rewrite Hw2. simpl. rewrite Hg.
  match goal with
  | |- context [mux_NewMux ?c ?z ?e] => destruct (mux_NewMux c z e) as [m env3]
  end.
  exists m. eexists. split; [reflexivity |]. simpl. auto.
Qed.

(** X17. The handler slot of the connection state is last writer wins:
    registering [f], nil or not, and then [g] leaves the transport as
    registering [g] alone does, and a notification then calls [g], never
    [f], and after it the internal handler if one is set. *)
Theorem OnConnectionStateChange_last_wins
    (f : option HandlerRef) (g : HandlerRef)
    (iceState : ice_ConnectionState) (w : World) :
  let w2 := runs [OpOnConnectionStateChange f; OpOnConnectionStateChange (Some g)] w in
  let s := newICETransportStateFromICE iceState in
  w2 = run (OpOnConnectionStateChange (Some g)) w /\
  onConnectionStateChangeHandler (tr w2) = Some (Some g) /\
  calls (run (OpConnectionStateCallback iceState) w2)
  = calls w ++ StateHandler g s
            :: match internalOnConnectionStateChangeHandler (tr w) with
               | Some (Some h) => [StateHandler h s]
               | _ => []
               end.
Proof.
  cbv zeta. split; [reflexivity |]. split; [reflexivity |].
  destruct (connectionStateCallback_final iceState
              (runs [OpOnConnectionStateChange f; OpOnConnectionStateChange (Some g)] w))
    as (_ & H).
  change (run (OpConnectionStateCallback iceState)
            (runs [OpOnConnectionStateChange f; OpOnConnectionStateChange (Some g)] w))
    with (final (connectionStateCallback iceState
            (runs [OpOnConnectionStateChange f; OpOnConnectionStateChange (Some g)] w))).
  rewrite H. simpl.
  destruct (internalOnConnectionStateChangeHandler (tr w)) as [[h |] |]; reflexivity.
Qed.

(** X18. A selected pair notification whose candidates do not convert is
    dropped: no handler is called and nothing changes.  When they convert,
    the handler of the application, if one was stored, is called once with
    the two converted candidates, local first; a stored nil handler makes
    the notification panic, and with no handler nothing happens. *)
Theorem selectedCandidatePairCallback_drop
    (l r : ice_Candidate) (w : World) :
  (forall cs e,
     newICECandidatesFromICE [l; r] = (cs, Some e) ->
     selectedCandidatePairCallback l r w = Returns tt w) /\
  (forall c0 c1 rest,
     newICECandidatesFromICE [l; r] = (c0 :: c1 :: rest, None) ->
     selectedCandidatePairCallback l r w
     = match onSelectedCandidatePairChangeHandler (tr w) with
       | Some (Some h) => call (PairHandler h c0 c1) (handler_pair h c0 c1) w
       | Some None => Panics w
       | None => Returns tt w
       end).
Proof.
  unfold selectedCandidatePairCallback, onSelectedCandidatePairChange. split.
  - intros cs e ->. reflexivity.
  - intros c0 c1 rest ->. unfold bind, get.
    destruct (onSelectedCandidatePairChangeHandler (tr w)) as [[h |] |];
      reflexivity.
Qed.

(** X19. Only the two locked ends of [Start], the locked part of [stop],
    the handler setters and the agent's state notification write the
    transport.  The dial or accept, the closes of [stop], the selected
    pair notification and every accessor and mutator of candidates and
    credentials leave all its fields as they were, whatever they
    return. *)
Theorem transport_writers (o : Op) (w : World) :
  writes_transport o = false -> tr (run o w) = tr w.
Proof.
  destruct o; simpl; try discriminate; intros _; crunch; reflexivity.
Qed.

(** *** Lazy creation of the agent, and the remaining accessors *)

(** X20. The agent is created lazily and only when absent.  If the bound
    gatherer has an agent, [ensureGatherer] calls nothing.  If it has none
    and createAgent fails, [SetRemoteCandidates], [AddRemoteCandidate],
    [GetLocalParameters] and [Start] (on a New transport, no gatherer
    passed) all return that error having called createAgent and nothing
    else; the transport is not written. *)
Theorem createAgent_lazy (w : World) (g : GathererRef) :
  gatherer (tr w) = Some g ->
  (forall agent,
     gatherer_getAgent g (env w) = Some agent ->
     ensureGatherer w = Returns None w) /\
  (forall err env',
     gatherer_getAgent g (env w) = None ->
     gatherer_createAgent g (env w) = (Some err, env') ->
     let w1 := {| tr := tr w; env := env'; calls := calls w ++ [CreateAgent g] |} in
     (forall remoteCandidates,
        SetRemoteCandidates remoteCandidates w = Returns (Some err) w1) /\
     (forall remoteCandidate,
        AddRemoteCandidate remoteCandidate w = Returns (Some err) w1) /\
     GetLocalParameters w = Returns (None, Some err) w1 /\
     (current_state (tr w) = ICETransportStateNew ->
      forall params roleArg,
        Start None params roleArg w = Returns (Some err) w1)).
Proof.
  intros Hg. split.
  - intros agent Ha. unfold ensureGatherer. unfold_monad.
    rewrite Hg, Ha. reflexivity.
  - intros err env' Ha Hc. cbv zeta.
    assert (He : ensureGatherer w
                 = Returns (Some err)
                     {| tr := tr w; env := env'; calls := calls w ++ [CreateAgent g] |}).
    { unfold ensureGatherer. unfold_monad. rewrite Hg, Ha, Hc. reflexivity. }
    split; [| split; [| split]].
    + intros cs. unfold SetRemoteCandidates. unfold bind at 1.
      rewrite He. reflexivity.
    + intros c. unfold AddRemoteCandidate. unfold bind at 1.
      rewrite He. reflexivity.
    + unfold GetLocalParameters. unfold bind at 1. rewrite He. reflexivity.
    + intros Hs params roleArg. unfold Start, Start_setup.
      unfold bind at 1 2. rewrite State_current, Hs. simpl.
      unfold bind at 1 2. simpl. rewrite He. reflexivity.
Qed.

(** X21. [GetSelectedCandidatePair] on a transport with a gatherer gives
    no pair and no error when the gatherer has no agent, and no pair
    together with the agent's error value, nil or not, when the agent has
    selected none. *)
Theorem GetSelectedCandidatePair_none (w : World) (g : GathererRef) :
  gatherer (tr w) = Some g ->
  (gatherer_getAgent g (env w) = None ->
     GetSelectedCandidatePair w = Returns (None, None) w) /\
  (forall agent err env',
     gatherer_getAgent g (env w) = Some agent ->
     agent_GetSelectedCandidatePair agent (env w) = (None, err, env') ->
     GetSelectedCandidatePair w
     = Returns (None, err)
         {| tr := tr w; env := env';
            calls := calls w ++ [AgentGetSelectedCandidatePair agent] |}).
Proof.
  intros Hg. unfold GetSelectedCandidatePair, getAgent.
  unfold bind, get, peek, call, ret. rewrite Hg. split.
  - intros ->. reflexivity.
  - intros agent err env' -> ->. reflexivity.
Qed.

(** [collectStats] always returns and never writes the transport.
    It tells the collector that it is collecting, then reads the two byte
    counters of the connection, zero for both when there is none, and
    hands them to the collector. *)
Lemma collectStats_report (w : World) :
  let env1 := snd (collector_Collecting (env w)) in
  let sent := match conn (tr w) with
              | Some c => conn_BytesSent c env1
              | None => 0
              end in
  let received := match conn (tr w) with
                  | Some c => conn_BytesReceived c env1
                  | None => 0
                  end in
  collectStats w
  = Returns tt
      {| tr := tr w;
         env := snd (collector_Collect sent received env1);
         calls := calls w ++ [CollectorCollecting; CollectorCollect sent received] |}.
Proof.
  cbv zeta. unfold collectStats. unfold_monad.
  destruct (collector_Collecting (env w)) as [[] env1]. simpl.
  destruct (conn (tr w)) as [c |]; simpl;
    match goal with
    | |- context [collector_Collect ?a ?b ?e] =>
        destruct (collector_Collect a b e) as [[] env2]
    end; simpl; rewrite <- app_assoc; reflexivity.
Qed.
End Properties.

(** ** Instances of the statements on the test double *)

Lemma Start_not_in_new_witness :
  current_state (tr d_connected) <> ICETransportStateNew /\
  Start None uf1pw1 (Some ICERoleControlled) d_connected
  = Returns (Some (Err errICETransportNotInNew)) d_connected.
Proof.
  assert (H : current_state (tr d_connected) <> ICETransportStateNew)
    by (simpl; discriminate).
  split; [exact H |].
  exact (@Start_not_in_new double None uf1pw1 (Some ICERoleControlled) d_connected H).
Defined.



Lemma Start_role_dispatch_witness :
  (Start_setup None (Some ICERoleControlling) d_new
   = Returns (inr (d_locals (Some ICERoleControlling)))
       (d_setup (Some ICERoleControlling)) /\
   Start None uf1pw1 (Some ICERoleControlling) d_new
   = bind (call (Dial O (Some 1%nat) "uf1" "pw1")
                (agent_Dial O (Some 1%nat) "uf1" "pw1"))
          Start_finish (d_setup (Some ICERoleControlling)) /\
   exists before rest,
     calls (final (Start None uf1pw1 (Some ICERoleControlling) d_new))
     = calls d_new ++ before ++ Dial O (Some 1%nat) "uf1" "pw1" :: rest /\
     forallb (fun c => negb (is_connect c)) before = true /\
     forallb (fun c => negb (is_connect c)) rest = true) /\
  (Start_setup None (Some ICERoleControlled) d_new
   = Returns (inr (d_locals (Some ICERoleControlled)))
       (d_setup (Some ICERoleControlled)) /\
   Start None uf1pw1 (Some ICERoleControlled) d_new
   = bind (call (Accept O (Some 1%nat) "uf1" "pw1")
                (agent_Accept O (Some 1%nat) "uf1" "pw1"))
          Start_finish (d_setup (Some ICERoleControlled)) /\
   exists before rest,
     calls (final (Start None uf1pw1 (Some ICERoleControlled) d_new))
     = calls d_new ++ before ++ Accept O (Some 1%nat) "uf1" "pw1" :: rest /\
     forallb (fun c => negb (is_connect c)) before = true /\
     forallb (fun c => negb (is_connect c)) rest = true) /\
  (Start_setup None (Some 7%Z) d_new
   = Returns (inr (d_locals (Some 7%Z))) (d_setup (Some 7%Z)) /\
   Start None uf1pw1 (Some 7%Z) d_new
   = Returns (Some (Err errICERoleUnknown)) (d_setup (Some 7%Z))).
Proof.
  assert (H1 : Start_setup None (Some ICERoleControlling) d_new
               = Returns (inr (d_locals (Some ICERoleControlling)))
                   (d_setup (Some ICERoleControlling))) by reflexivity.
  assert (H2 : Start_setup None (Some ICERoleControlled) d_new
               = Returns (inr (d_locals (Some ICERoleControlled)))
                   (d_setup (Some ICERoleControlled))) by reflexivity.
  assert (H3 : Start_setup None (Some 7%Z) d_new
               = Returns (inr (d_locals (Some 7%Z))) (d_setup (Some 7%Z)))
    by reflexivity.
  split; [| split].
  - split; [exact H1 |].
    exact (proj2 (proj1 (@Start_role_dispatch double None uf1pw1 _ d_new _ _ H1)
                    eq_refl)).
  - split; [exact H2 |].
    exact (proj2 (proj1 (proj2 (@Start_role_dispatch double None uf1pw1 _ d_new _ _ H2))
                    eq_refl)).
  - split; [exact H3 |].
    apply (proj2 (proj2 (@Start_role_dispatch double None uf1pw1 _ d_new _ _ H3))
             7%Z eq_refl);
      discriminate.
Defined.

Lemma GracefulStop_order_witness :
  reachable d_started /\
  mux (tr d_started) = Some 1%nat /\
  exists err w',
    GracefulStop d_started = Returns err w' /\
    calls w' = calls d_started
               ++ [Cancel 1%nat; GathererGracefulClose O; MuxClose 1%nat].
Proof.
  assert (Hr : reachable d_started).
  { unfold d_started, runs. cbv beta iota delta [fold_left].
    do 3 apply reachable_run.
    exact (@reachable_new double (Some O) d_env0). }
  assert (Hm : mux (tr d_started) = Some 1%nat) by reflexivity.
  split; [exact Hr |]. split; [exact Hm |].
  destruct (@GracefulStop_order double d_started 1%nat Hr Hm) as (g & Hg & Hstop & _).
  assert (g = O) by (simpl in Hg; congruence). subst g.
  do 2 eexists. split; [exact Hstop | reflexivity].
Defined.

(** A gatherer whose Close fails: [Stop] returns its error. *)
Lemma Stop_twice_counterexample : ~ Stop_twice_succeeds d_failing_close.
Proof.
  intros (w1 & w2 & H1 & _). vm_compute in H1. discriminate H1.
Qed.

Lemma d_closing_closes_succeed : closes_succeed d_closing.
Proof. split; intros; reflexivity. Qed.

(** Closes that succeed: both calls return nil and close multiplexer 1.
    A gatherer whose Close fails: both calls return its error. *)
Lemma Stop_twice_returns_witness :
  (closes_succeed d_closing /\
   exists w1 w2,
     Stop d_closing_started = Returns None w1 /\ Stop w1 = Returns None w2 /\
     calls w1 = [MuxClose 1%nat] /\
     calls w2 = [MuxClose 1%nat; MuxClose 1%nat]) /\
  (exists w1 w2,
     Stop d_failing_close = Returns (Some (Err (errExternal 9))) w1 /\
     Stop w1 = Returns (Some (Err (errExternal 9))) w2 /\
     calls w2 = [GathererClose O; GathererClose O]).
Proof.
  split.
  - split; [exact d_closing_closes_succeed |].
    destruct (@Stop_twice_returns d_closing d_closing_started)
      as (w1 & w2 & _ & Hc1 & _ & Hc2 & _ & _ & Hok).
    destruct (Hok d_closing_closes_succeed) as [H1 H2].
    exists w1, w2. split; [exact H1 |]. split; [exact H2 |].
    split; [exact Hc1 |]. rewrite Hc2, Hc1. reflexivity.
  - destruct (@Stop_twice_returns double d_failing_close)
      as (w1 & w2 & H1 & Hc1 & H2 & Hc2 & _).
    exists w1, w2. split; [exact H1 |].
    assert (He : env w1 = d_with_agent None (env d_failing_close)).
    { vm_compute in H1. inversion H1. reflexivity. }
    split; [rewrite H2, He; reflexivity |].
    rewrite Hc2, Hc1. reflexivity.
Defined.

(** The agent refuses candidate 3 of [1; 2; 3; 4]: 1 and 2 stay added. *)
Lemma SetRemoteCandidates_fail_fast_witness :
  ensureGatherer d_rejecting = Returns None d_rejecting /\
  getAgent d_rejecting = Returns (Some O) d_rejecting /\
  exists err w',
    SetRemoteCandidates [1; 2; 3; 4]%nat d_rejecting = Returns (Some err) w' /\
    d_added (env w') = [Some 1; Some 2]%nat.
Proof.
  assert (H1 : ensureGatherer d_rejecting = Returns None d_rejecting)
    by reflexivity.
  assert (H2 : getAgent d_rejecting = Returns (Some O) d_rejecting)
    by reflexivity.
  split; [exact H1 |]. split; [exact H2 |].
  destruct (@SetRemoteCandidates_fail_fast double [1; 2; 3; 4]%nat d_rejecting d_rejecting O H1 H2)
    as [(w' & Hr & _) | (pre & c & suf & err & w' & _ & Hr & _)].
  - vm_compute in Hr. discriminate Hr.
  - exists err, w'. split; [exact Hr |].
    vm_compute in Hr. inversion Hr. reflexivity.
Defined.

(** The gatherer has no agent yet and could create one: the method creates
    none and fails, where the specified one creates it and succeeds. *)
Lemma setRemoteCredentials_counterexample :
  setRemoteCredentials "uf2" "pw2" d_new
  = Returns (Some (Wrapf errICEAgentNotExist "unable to SetRemoteCredentials")) d_new /\
  setRemoteCredentials "uf2" "pw2" d_new
  <> setRemoteCredentials_as_specified "uf2" "pw2" d_new.
Proof.
  split; [reflexivity |]. vm_compute. discriminate.
Qed.

Lemma setRemoteCredentials_needs_agent_witness :
  gatherer (tr d_new) = Some O /\
  gatherer_getAgent O (env d_new) = None /\
  exists err,
    setRemoteCredentials "uf2" "pw2" d_new = Returns (Some err) d_new /\
    errors_Is err errICEAgentNotExist = true.
Proof.
  assert (H1 : gatherer (tr d_new) = Some O) by reflexivity.
  assert (H2 : gatherer_getAgent O (env d_new) = None) by reflexivity.
  split; [exact H1 |]. split; [exact H2 |].
  exact (proj1 (@setRemoteCredentials_needs_agent double "uf2" "pw2" d_new O H1) H2).
Defined.

Lemma Start_nil_role_defaults_witness :
  Start_setup None None d_new = Returns (inr (d_locals None)) (d_setup None) /\
  role (tr (d_setup None)) = ICERoleControlled /\
  Start_connect uf1pw1 (d_locals None) (d_setup None)
  = call (Accept O (Some 1%nat) "uf1" "pw1")
         (agent_Accept O (Some 1%nat) "uf1" "pw1") (d_setup None).
Proof.
  assert (H : Start_setup None None d_new
              = Returns (inr (d_locals None)) (d_setup None)) by reflexivity.
  destruct (@Start_nil_role_defaults double None uf1pw1 d_new _ _ H) as (_ & _ & Hr & Hc & _).
  split; [exact H |]. split; [exact Hr | exact Hc].
Defined.


Lemma no_gatherer_refused_witness :
  gatherer (tr d_no_gatherer) = None /\
  current_state (tr d_no_gatherer) = ICETransportStateNew /\
  Start None uf1pw1 (Some ICERoleControlling) d_no_gatherer
  = Returns (Some (Err errICEGathererNotStarted)) d_no_gatherer /\
  SetRemoteCandidates [] d_no_gatherer
  = Returns (Some (Err errICEGathererNotStarted)) d_no_gatherer.
Proof.
  assert (Hg : gatherer (tr d_no_gatherer) = None) by reflexivity.
  assert (Hs : current_state (tr d_no_gatherer) = ICETransportStateNew)
    by reflexivity.
  destruct (@no_gatherer_refused double d_no_gatherer Hg) as (H1 & H2 & _).
  split; [exact Hg |]. split; [exact Hs |].
  split; [exact (H1 Hs uf1pw1 (Some ICERoleControlling)) | exact (H2 [])].
Defined.

Lemma Start_publishes_witness :
  Start_setup None (Some ICERoleControlling) d_new
  = Returns (inr (d_locals (Some ICERoleControlling)))
      (d_setup (Some ICERoleControlling)) /\
  Start_connect uf1pw1 (d_locals (Some ICERoleControlling))
    (d_setup (Some ICERoleControlling))
  = Returns (Some 5%nat, None)
      (run (OpStartConnect uf1pw1 (d_locals (Some ICERoleControlling)))
         (d_setup (Some ICERoleControlling))) /\
  exists w',
    Start None uf1pw1 (Some ICERoleControlling) d_new = Returns None w' /\
    conn (tr w') = Some 5%nat /\ mux (tr w') = Some 1%nat.
Proof.
  assert (H1 : Start_setup None (Some ICERoleControlling) d_new
               = Returns (inr (d_locals (Some ICERoleControlling)))
                   (d_setup (Some ICERoleControlling))) by reflexivity.
  assert (H2 : Start_connect uf1pw1 (d_locals (Some ICERoleControlling))
                 (d_setup (Some ICERoleControlling))
               = Returns (Some 5%nat, None)
                   (run (OpStartConnect uf1pw1 (d_locals (Some ICERoleControlling)))
                      (d_setup (Some ICERoleControlling)))) by reflexivity.
  split; [exact H1 |]. split; [exact H2 |].
  destruct (@Start_publishes double None uf1pw1 _ d_new _ _ _ _ H1 H2)
    as (g & _ & Hs).
  cbv zeta in Hs. eexists. split; [exact Hs |]. split; reflexivity.
Defined.

Lemma Start_keeps_state_witness :
  Start None uf1pw1 None d_new
  = Returns None (final (Start None uf1pw1 None d_new)) /\
  current_state (tr (final (Start None uf1pw1 None d_new)))
  = ICETransportStateNew.
Proof.
  assert (H : Start None uf1pw1 None d_new
              = Returns None (final (Start None uf1pw1 None d_new)))
    by reflexivity.
  split; [exact H |].
  exact (proj2 (@Start_keeps_state double None uf1pw1 None d_new _ None H) eq_refl).
Defined.

(** createAgent fails: [Start] is refused, yet gatherer 9 passed as
    argument has replaced gatherer 3. *)
Lemma Start_refused_frame_witness :
  Start_setup (Some 9%nat) None d_agentless_new
  = Returns (inl (Err (errExternal 8)))
      (run (OpStartSetup (Some 9%nat) None) d_agentless_new) /\
  gatherer (tr d_agentless_new) = Some 3%nat /\
  gatherer (tr (run (OpStartSetup (Some 9%nat) None) d_agentless_new))
  = Some 9%nat /\
  role (tr (run (OpStartSetup (Some 9%nat) None) d_agentless_new))
  = role (tr d_agentless_new).
Proof.
  assert (H : Start_setup (Some 9%nat) None d_agentless_new
              = Returns (inl (Err (errExternal 8)))
                  (run (OpStartSetup (Some 9%nat) None) d_agentless_new))
    by reflexivity.
  destruct (@Start_refused_frame d_agentless (Some 9%nat) uf1pw1 None
              d_agentless_new _ _ H)
    as (_ & Hr & _ & _ & _ & _ & _ & Hg & _).
  split; [exact H |]. split; [reflexivity |].
  split; [exact (Hg eq_refl 9%nat eq_refl) | exact Hr].
Defined.

Lemma gatherer_stays_bound_witness :
  gatherer (tr d_new) = Some O /\
  (exists g', gatherer (tr (runs [OpStopLocked; OpStartSetup (Some 4%nat) None] d_new))
              = Some g') /\
  gatherer (tr (runs [OpStopLocked; OpRestart; OpNewEndpoint] d_new)) = Some O.
Proof.
  assert (Hg : gatherer (tr d_new) = Some O) by reflexivity.
  destruct (@gatherer_stays_bound double d_new O Hg) as (H1 & H2).
  split; [exact Hg |].
  split; [exact (H1 [OpStopLocked; OpStartSetup (Some 4%nat) None]) |].
  exact (H2 [OpStopLocked; OpRestart; OpNewEndpoint] eq_refl).
Defined.

Lemma stop_cancels_context_of_Start_witness :
  Start_setup None (Some ICERoleControlling) d_new
  = Returns (inr (d_locals (Some ICERoleControlling)))
      (d_setup (Some ICERoleControlling)) /\
  exists c,
    ctx (tr (d_setup (Some ICERoleControlling))) = Some c /\
    exists err w' closes,
      Stop (runs [OpStartConnect uf1pw1 (d_locals (Some ICERoleControlling))]
              (d_setup (Some ICERoleControlling)))
      = Returns err w' /\
      calls w'
      = calls (runs [OpStartConnect uf1pw1 (d_locals (Some ICERoleControlling))]
                 (d_setup (Some ICERoleControlling)))
        ++ Cancel c :: closes.
Proof.
  assert (H : Start_setup None (Some ICERoleControlling) d_new
              = Returns (inr (d_locals (Some ICERoleControlling)))
                  (d_setup (Some ICERoleControlling))) by reflexivity.
  split; [exact H |].
  destruct (@stop_cancels_context_of_Start double None _ d_new _ _ H)
    as (c & Hc & _ & _ & Hstop).
  exists c. split; [exact Hc |].
  destruct (Hstop [OpStartConnect uf1pw1 (d_locals (Some ICERoleControlling))]
              false eq_refl)
    as (err & w' & closes & Hs & Hcalls & _).
  exists err, w', closes. split; [exact Hs | exact Hcalls].
Defined.

Lemma stop_is_final_witness :
  exists err w',
    GracefulStop d_started = Returns err w' /\
    Start None uf1pw1 None (runs [OpRole; OpCollectStats] w')
    = Returns (Some (Err errICETransportNotInNew))
        (runs [OpRole; OpCollectStats] w').
Proof.
  destruct (@stop_is_final double true d_started) as (err & w' & Hs & _ & H).
  exists err, w'. split; [exact Hs |].
  exact (H [OpRole; OpCollectStats] eq_refl None uf1pw1 None).
Defined.

Lemma GracefulStop_without_mux_witness :
  mux (tr d_new) = None /\
  exists w',
    GracefulStop d_new = Returns None w' /\
    calls w' = [GathererGracefulClose O].
Proof.
  assert (Hm : mux (tr d_new) = None) by reflexivity.
  split; [exact Hm |].
  eexists. split; [exact (@GracefulStop_without_mux double d_new Hm) | reflexivity].
Defined.

Lemma SetRemoteCandidates_app_witness :
  ensureGatherer d_rejecting = Returns None d_rejecting /\
  getAgent d_rejecting = Returns (Some O) d_rejecting /\
  SetRemoteCandidates ([1; 2] ++ [3; 4])%nat d_rejecting
  = match SetRemoteCandidates [1; 2]%nat d_rejecting with
    | Returns None w' => SetRemoteCandidates_loop O [3; 4]%nat w'
    | r => r
    end.
Proof.
  assert (H1 : ensureGatherer d_rejecting = Returns None d_rejecting)
    by reflexivity.
  assert (H2 : getAgent d_rejecting = Returns (Some O) d_rejecting)
    by reflexivity.
  split; [exact H1 |]. split; [exact H2 |].
  exact (@SetRemoteCandidates_app double [1; 2]%nat [3; 4]%nat
           d_rejecting d_rejecting O H1 H2).
Defined.

Lemma SetRemoteCandidates_single_witness :
  ensureGatherer d_rejecting = Returns None d_rejecting /\
  getAgent d_rejecting = Returns (Some O) d_rejecting /\
  SetRemoteCandidates [3%nat] d_rejecting
  = AddRemoteCandidate (Some 3%nat) d_rejecting.
Proof.
  assert (H1 : ensureGatherer d_rejecting = Returns None d_rejecting)
    by reflexivity.
  assert (H2 : getAgent d_rejecting = Returns (Some O) d_rejecting)
    by reflexivity.
  split; [exact H1 |]. split; [exact H2 |].
  exact (@SetRemoteCandidates_single double 3%nat d_rejecting d_rejecting O H1 H2).
Defined.

Lemma AddRemoteCandidate_edges_witness :
  ensureGatherer d_rejecting = Returns None d_rejecting /\
  getAgent d_rejecting = Returns (Some O) d_rejecting /\
  AddRemoteCandidate None d_rejecting
  = call (AgentAddRemoteCandidate O None) (agent_AddRemoteCandidate O None)
         d_rejecting /\
  snd (toICE 100%nat) = Some (Err (errExternal 100)) /\
  AddRemoteCandidate (Some 100%nat) d_rejecting
  = Returns (Some (Err (errExternal 100))) d_rejecting.
Proof.
  assert (H1 : ensureGatherer d_rejecting = Returns None d_rejecting)
    by reflexivity.
  assert (H2 : getAgent d_rejecting = Returns (Some O) d_rejecting)
    by reflexivity.
  assert (H3 : snd (@toICE double 100%nat) = Some (Err (errExternal 100)))
    by reflexivity.
  destruct (@AddRemoteCandidate_edges double d_rejecting d_rejecting H1)
    as (Ha & Hb).
  split; [exact H1 |]. split; [exact H2 |]. split; [exact (Ha O H2) |].
  split; [exact H3 | exact (Hb 100%nat _ H3)].
Defined.

Lemma haveRemoteCredentialsChange_spec_witness :
  gatherer (tr d_connected) = Some O /\
  gatherer_getAgent O (env d_connected) = Some O /\
  exists w',
    haveRemoteCredentialsChange "uf2" "pw2" d_connected = Returns true w'.
Proof.
  assert (Hg : gatherer (tr d_connected) = Some O) by reflexivity.
  assert (Ha : gatherer_getAgent O (env d_connected) = Some O) by reflexivity.
  split; [exact Hg |]. split; [exact Ha |].
  destruct (proj2 (@haveRemoteCredentialsChange_spec double "uf2" "pw2"
                     d_connected O Hg)
              O "" "" None (env d_connected) Ha eq_refl)
    as (changed & Hr & Hiff).
  assert (Hc : changed = true).
  { apply Hiff. split; [reflexivity |]. left. discriminate. }
  subst changed. eexists. exact Hr.
Defined.

Lemma restart_order_witness :
  gatherer (tr d_rejecting) = Some O /\
  gatherer_getAgent O (env d_rejecting) = Some O /\
  exists w',
    restart d_rejecting = Returns None w' /\
    calls w' = [AgentRestart O; Gather O].
Proof.
  assert (Hg : gatherer (tr d_rejecting) = Some O) by reflexivity.
  assert (Ha : gatherer_getAgent O (env d_rejecting) = Some O) by reflexivity.
  split; [exact Hg |]. split; [exact Ha |].
  eexists. split.
  - exact (proj2 (@restart_order double d_rejecting O Hg) O Ha).
  - reflexivity.
Defined.

(** [Stop], then the agent reports Connected (3), then [Start] retakes
    its lock with connection 5. *)
Lemma notification_reopens_after_stop_witness :
  gatherer (tr (d_setup (Some ICERoleControlling))) = Some O /\
  newICETransportStateFromICE 3%nat <> ICETransportStateClosed /\
  exists m w3,
    Start_finish (Some 5%nat, None)
      (run (OpConnectionStateCallback 3%nat)
         (run OpStopLocked (d_setup (Some ICERoleControlling))))
    = Returns None w3 /\
    conn (tr w3) = Some 5%nat /\
    mux (tr w3) = Some m.
Proof.
  assert (Hg : gatherer (tr (d_setup (Some ICERoleControlling))) = Some O)
    by reflexivity.
  assert (Hs : @newICETransportStateFromICE double 3%nat <> ICETransportStateClosed)
    by (simpl; discriminate).
  split; [exact Hg |]. split; [exact Hs |].
  destruct (@notification_reopens_after_stop double
              (d_setup (Some ICERoleControlling)) O 3%nat (Some 5%nat) Hg Hs)
    as (_ & _ & m & w3 & Hf & Hc & Hm & _).
  exists m, w3. split; [exact Hf |]. split; [exact Hc | exact Hm].
Defined.

(** Handler 7 is set.  Candidate 100 does not convert: the notification
    is dropped.  Candidates 1 and 2 convert: handler 7 is called with
    them. *)
Lemma selectedCandidatePairCallback_drop_witness :
  (newICECandidatesFromICE [100; 2]%nat = ([], Some (Err (errExternal 100))) /\
   selectedCandidatePairCallback 100%nat 2%nat d_pair_handler
   = Returns tt d_pair_handler) /\
  (newICECandidatesFromICE [1; 2]%nat = ([1; 2]%nat, None) /\
   onSelectedCandidatePairChangeHandler (tr d_pair_handler) = Some (Some 7%nat) /\
   selectedCandidatePairCallback 1%nat 2%nat d_pair_handler
   = call (PairHandler 7%nat 1%nat 2%nat) (handler_pair 7%nat 1%nat 2%nat)
          d_pair_handler).
Proof.
  assert (Hf : @newICECandidatesFromICE double [100; 2]%nat
               = ([], Some (Err (errExternal 100)))) by reflexivity.
  assert (Hs : @newICECandidatesFromICE double [1; 2]%nat = ([1; 2]%nat, None))
    by reflexivity.
  split.
  - split; [exact Hf |].
    exact (proj1 (@selectedCandidatePairCallback_drop double 100%nat 2%nat
                    d_pair_handler) _ _ Hf).
  - split; [exact Hs |]. split; [reflexivity |].
    exact (proj2 (@selectedCandidatePairCallback_drop double 1%nat 2%nat
                    d_pair_handler) 1%nat 2%nat [] Hs).
Defined.

(** A stored nil handler: the notification panics after it stored the
    state.  No handler stored: it returns. *)
Lemma connectionStateCallback_order_witness :
  (onConnectionStateChangeHandler (tr d_nil_handler) = Some None /\
   connectionStateCallback 3%nat d_nil_handler
   = Panics (final (connectionStateCallback 3%nat d_nil_handler)) /\
   current_state (tr (final (connectionStateCallback 3%nat d_nil_handler)))
   = ICETransportStateConnected) /\
  (onConnectionStateChangeHandler (tr d_new) <> Some None /\
   internalOnConnectionStateChangeHandler (tr d_new) <> Some None /\
   exists w', connectionStateCallback 3%nat d_new = Returns tt w').
Proof.
  split.
  - split; [reflexivity |]. split; [reflexivity |].
    destruct (@connectionStateCallback_order double 3%nat d_nil_handler)
      as (Ht & _).
    rewrite Ht. reflexivity.
  - assert (H1 : onConnectionStateChangeHandler (tr d_new) <> Some None)
      by (simpl; discriminate).
    assert (H2 : internalOnConnectionStateChangeHandler (tr d_new) <> Some None)
      by (simpl; discriminate).
    split; [exact H1 |]. split; [exact H2 |].
    destruct (@connectionStateCallback_order double 3%nat d_new) as (_ & _ & Hiff).
    exact (proj2 Hiff (conj H1 H2)).
Defined.

Lemma transport_writers_witness :
  writes_transport (OpStopClose false (Some 1%nat, Some O)) = false /\
  tr (run (OpStopClose false (Some 1%nat, Some O)) d_connected) = tr d_connected.
Proof.
  split; [reflexivity |].
  exact (@transport_writers double (OpStopClose false (Some 1%nat, Some O))
           d_connected eq_refl).
Defined.

Lemma createAgent_lazy_witness :
  (gatherer (tr d_rejecting) = Some O /\
   gatherer_getAgent O (env d_rejecting) = Some O /\
   ensureGatherer d_rejecting = Returns None d_rejecting) /\
  (gatherer (tr d_agentless_new) = Some 3%nat /\
   gatherer_getAgent 3%nat (env d_agentless_new) = None /\
   gatherer_createAgent 3%nat (env d_agentless_new)
   = (Some (Err (errExternal 8)), d_env0) /\
   exists w1,
     calls w1 = [CreateAgent 3%nat] /\
     SetRemoteCandidates [] d_agentless_new
     = Returns (Some (Err (errExternal 8))) w1 /\
     Start None uf1pw1 None d_agentless_new
     = Returns (Some (Err (errExternal 8))) w1).
Proof.
  split.
  - assert (Hg : gatherer (tr d_rejecting) = Some O) by reflexivity.
    assert (Ha : gatherer_getAgent O (env d_rejecting) = Some O) by reflexivity.
    split; [exact Hg |]. split; [exact Ha |].
    exact (proj1 (@createAgent_lazy double d_rejecting O Hg) O Ha).
  - assert (Hg : gatherer (tr d_agentless_new) = Some 3%nat) by reflexivity.
    assert (Ha : @gatherer_getAgent d_agentless 3%nat (env d_agentless_new) = None)
      by reflexivity.
    assert (Hc : @gatherer_createAgent d_agentless 3%nat (env d_agentless_new)
                 = (Some (Err (errExternal 8)), d_env0)) by reflexivity.
    split; [exact Hg |]. split; [exact Ha |]. split; [exact Hc |].
    destruct (proj2 (@createAgent_lazy d_agentless d_agentless_new 3%nat Hg)
                _ _ Ha Hc)
      as (H1 & _ & _ & H4).
    eexists. split; [| split; [exact (H1 []) | exact (H4 eq_refl uf1pw1 None)]].
    reflexivity.
Defined.

Lemma GetSelectedCandidatePair_none_witness :
  (gatherer (tr d_new) = Some O /\
   gatherer_getAgent O (env d_new) = None /\
   GetSelectedCandidatePair d_new = Returns (None, None) d_new) /\
  (gatherer (tr d_rejecting) = Some O /\
   gatherer_getAgent O (env d_rejecting) = Some O /\
   exists w',
     GetSelectedCandidatePair d_rejecting = Returns (None, None) w' /\
     calls w' = [AgentGetSelectedCandidatePair O]).
Proof.
  split.
  - assert (Hg : gatherer (tr d_new) = Some O) by reflexivity.
    assert (Ha : gatherer_getAgent O (env d_new) = None) by reflexivity.
    split; [exact Hg |]. split; [exact Ha |].
    exact (proj1 (@GetSelectedCandidatePair_none double d_new O Hg) Ha).
  - assert (Hg : gatherer (tr d_rejecting) = Some O) by reflexivity.
    assert (Ha : gatherer_getAgent O (env d_rejecting) = Some O) by reflexivity.
    split; [exact Hg |]. split; [exact Ha |].
    eexists. split.
    + exact (proj2 (@GetSelectedCandidatePair_none double d_rejecting O Hg)
               O None (env d_rejecting) Ha eq_refl).
    + reflexivity.
Defined.
